(** * hamster_auto_tracker: lock/unlock driven time tracking

    A shallow embedding of [src/hamster_auto_tracker.py].  The class
    [AutoTracker] listens on the session bus for calls of
    [org.gnome.ScreenSaver.Lock] and for the [ActiveChanged] signal, and
    drives the hamster time tracker through its D-Bus interface.

    The object's mutable fields become a record, the handlers become
    computations in a small state-and-exception monad over a [World] that
    holds the object, the hamster service behind the proxy, the wall clock,
    the logger's output and the trace of D-Bus calls made so far. *)

From Stdlib Require Import ZArith QArith Qabs Qround String List Bool Lia Lqa.
Import ListNotations.

Set Implicit Arguments.

(** ** Time

    [dt.datetime] values are points on the time line and
    [dt.timedelta(minutes=m)] is a span of [m] minutes.  Both are counted in
    minutes, as rationals; a float is the rational it denotes. *)

Definition datetime := Q.

Definition timedelta (minutes : Q) : Q := minutes.

(** ** Floats

    Python's [/] on two [int]s is true division: the answer is the double
    nearest to the quotient, a tie going to the even significand.  For a
    quotient [n/d] of positive numbers, [floor_log2] finds the power of two
    just below it, the quotient is scaled to 53 bits, rounded to a whole
    number and scaled back.  The delay divided here is a C [int] and the
    divisor is 60, far from where a double overflows or loses bits to
    underflow; those limits are left out. *)

(** [n/d] to the nearest whole number, ties to even; [d] positive. *)
Definition div_half_even (n d : Z) : Z :=
  let q := (n / d)%Z in
  match (2 * (n mod d) ?= d)%Z with
  | Lt => q
  | Gt => (q + 1)%Z
  | Eq => if Z.even q then q else (q + 1)%Z
  end.

(** The [e] with [2^e <= n/d < 2^(e+1)]; [n] and [d] positive. *)
Definition floor_log2 (n d : Z) : Z :=
  let k := (Z.log2 n - Z.log2 d)%Z in
  if (d * 2 ^ Z.max 0 k <=? n * 2 ^ Z.max 0 (- k))%Z then k else (k - 1)%Z.

Definition nearest_double (n d : Z) : Q :=
  let e := (floor_log2 n d - 52)%Z in
  let m := div_half_even (n * 2 ^ Z.max 0 (- e)) (d * 2 ^ Z.max 0 e) in
  Qred (Qmake (m * 2 ^ Z.max 0 e) (Z.to_pos (2 ^ Z.max 0 (- e)))).

(** [a / b] of Python, for [int]s [a] and [b > 0]. *)
Definition truediv (a : Z) (b : positive) : Q :=
  match a with
  | Z0 => 0
  | Zpos n => nearest_double (Zpos n) (Zpos b)
  | Zneg n => - nearest_double (Zpos n) (Zpos b)
  end.

(** Truth value of a Python number: everything but zero. *)
Definition Z_truthy (d : Z) : bool := negb (d =? 0)%Z.

Definition Q_truthy (q : Q) : bool := negb (Qeq_bool q 0).

(** ** Facts

    Modelled from the spec: [hamster.lib.fact.Fact] is not part of the
    sources; the record has the fields the spec lists for a ledger entry
    ([id], [category], [activity], [start], [end]).  A fact that was never
    stored has no id. *)

Record Range := { start : datetime; end_ : option datetime }.

Record Fact := {
  id : option Z;
  category : string;
  activity : string;
  range : Range }.

(** [act.range.end = None] *)
Definition set_range_end (act : Fact) (e : option datetime) : Fact :=
  {| id := id act;
     category := category act;
     activity := activity act;
     range := {| start := start (range act); end_ := e |} |}.

(** activity to use when creating facts *)
Definition default_activity : string := "Work".
Definition default_category : string := "Work".

(** ** The D-Bus boundary

    The converters of [hamster.lib.dbus] and the exception a failed remote
    call raises are outside the sources; they are parameters. *)

Class DBus := {
  DBusDate : Type;
  FactJSON : Type;
  DBusException : Type;
  to_dbus_date : datetime -> DBusDate;
  to_dbus_fact_json : Fact -> FactJSON;
  from_dbus_fact_json : FactJSON -> Fact }.

(** The remote object [org.gnome.Hamster] as the tracker uses it: four
    methods, each of which answers or fails, and may change the service.
    The first argument is the wall clock at the time of the call. *)

Class Hamster `{DBus} (L : Type) := {
  StopTracking : datetime -> DBusDate -> L -> (DBusException + unit) * L;
  GetTodaysFactsJSON : datetime -> L -> (DBusException + list FactJSON) * L;
  UpdateFactJSON : datetime -> option Z -> FactJSON -> L -> (DBusException + Z) * L;
  AddFactJSON : datetime -> FactJSON -> L -> (DBusException + Z) * L }.

(** ** The tracker object *)

Record AutoTracker := {
  screensaver_active : bool;
  screen_locked : bool;
  timeout_minutes : Q }.

Inductive Level := DEBUG | INFO.

Section Tracker.

Context `{D : DBus} {L : Type} `{H : !Hamster L}.

(** What the handlers write to the logger. *)
Inductive LogMessage :=
| ScreenSaver_active (act : bool)
| Lock_received
| active_changed_called (args : bool)
| stop_current_activity
| resume_or_start_new_activity
| Stopped_tracking (ret : unit)
| Update_fact (json : FactJSON)
| Updated_fact (ret : Z)
| Added_fact (ret : Z).

(** The remote calls, as they appear on the bus. *)
Inductive MethodCall :=
| Call_StopTracking (end_time : DBusDate)
| Call_GetTodaysFactsJSON
| Call_UpdateFactJSON (fact_id : option Z) (json : FactJSON)
| Call_AddFactJSON (json : FactJSON).

Record World := {
  self : AutoTracker;
  hamster : L;
  clock : datetime;
  log : list (Level * LogMessage);
  calls : list MethodCall }.

(** *** State and exceptions *)

Inductive outcome (A : Type) :=
| Returned (a : A)
| Raised (e : DBusException).

Arguments Returned {A} a.
Arguments Raised {A} e.

Definition M (A : Type) : Type := World -> outcome A * World.

Definition ret {A} (a : A) : M A := fun w => (Returned a, w).

Definition bind {A B} (m : M A) (k : A -> M B) : M B :=
  fun w =>
    match m w with
    | (Returned a, w') => k a w'
    | (Raised e, w') => (Raised e, w')
    end.

Notation "x <- m ;; k" := (bind m (fun x => k))
  (at level 61, m at next level, right associativity).
Notation "m ;; k" := (bind m (fun _ => k))
  (at level 61, right associativity).

Definition get_self : M AutoTracker := fun w => (Returned (self w), w).

Definition put_self (s : AutoTracker) : M unit :=
  fun w => (Returned tt,
            {| self := s; hamster := hamster w; clock := clock w;
               log := log w; calls := calls w |}).

Definition set_screensaver_active (b : bool) : M unit :=
  s <- get_self ;;
  put_self {| screensaver_active := b;
              screen_locked := screen_locked s;
              timeout_minutes := timeout_minutes s |}.

Definition set_screen_locked (b : bool) : M unit :=
  s <- get_self ;;
  put_self {| screensaver_active := screensaver_active s;
              screen_locked := b;
              timeout_minutes := timeout_minutes s |}.

Definition logger (lvl : Level) (msg : LogMessage) : M unit :=
  fun w => (Returned tt,
            {| self := self w; hamster := hamster w; clock := clock w;
               log := log w ++ [(lvl, msg)]; calls := calls w |}).

(** [dt.datetime.now()] *)
Definition datetime_now : M datetime := fun w => (Returned (clock w), w).

(** A call through the proxy [self.hamster]: it goes out on the bus, the
    service answers; a failure surfaces as an exception. *)
Definition remote {A} (c : MethodCall)
    (method : datetime -> L -> (DBusException + A) * L) : M A :=
  fun w =>
    let (reply, l') := method (clock w) (hamster w) in
    let w' := {| self := self w; hamster := l'; clock := clock w;
                 log := log w; calls := calls w ++ [c] |} in
    match reply with
    | inr a => (Returned a, w')
    | inl e => (Raised e, w')
    end.

(** *** The methods of [AutoTracker] *)

Record Message := {
  get_interface : option string;
  get_member : option string }.

Definition is_str (x : option string) (s : string) : bool :=
  match x with
  | Some y => String.eqb y s
  | None => false
  end.

Definition on_locked (msg : Message) : M unit :=
  if is_str (get_interface msg) "org.gnome.ScreenSaver"
     && is_str (get_member msg) "Lock"
  then
    logger DEBUG Lock_received ;;
    set_screen_locked true
  else ret tt.

Definition idle_start : M datetime :=
  s <- get_self ;;
  if negb (screen_locked s) && Q_truthy (timeout_minutes s)
  then
    t <- datetime_now ;;
    ret (t - timedelta (timeout_minutes s))
  else
    datetime_now.

Definition stop_activity : M unit :=
  t <- idle_start ;;
  r <- remote (Call_StopTracking (to_dbus_date t))
              (fun now => StopTracking now (to_dbus_date t)) ;;
  logger INFO (Stopped_tracking r) ;;
  ret r.

Definition get_todays_activities : M (list FactJSON) :=
  remote Call_GetTodaysFactsJSON GetTodaysFactsJSON.

(** [activities[-1]], the last fact reported, is the head of the reversed
    list; an empty list is the falsy case of [if activities]. *)
Definition resume_activity : M Z :=
  activities <- get_todays_activities ;;
  match rev activities with
  | last_json :: _ =>
      let act := set_range_end (from_dbus_fact_json last_json) None in
      let json := to_dbus_fact_json act in
      logger DEBUG (Update_fact json) ;;
      r <- remote (Call_UpdateFactJSON (id act) json)
                  (fun now => UpdateFactJSON now (id act) json) ;;
      logger DEBUG (Updated_fact r) ;;
      ret r
  | [] =>
      t <- datetime_now ;;
      let act := {| id := None;
                    category := default_category;
                    activity := default_activity;
                    range := {| start := t; end_ := None |} |} in
      let json := to_dbus_fact_json act in
      r <- remote (Call_AddFactJSON json)
                  (fun now => AddFactJSON now json) ;;
      logger DEBUG (Added_fact r) ;;
      ret r
  end.

Definition on_active_changed (active : bool) : M unit :=
  logger DEBUG (active_changed_called active) ;;
  set_screensaver_active active ;;
  s <- get_self ;;
  if screensaver_active s
  then
    logger INFO stop_current_activity ;;
    stop_activity ;;
    ret tt
  else
    logger INFO resume_or_start_new_activity ;;
    set_screen_locked false ;;
    resume_activity ;;
    ret tt.

(** *** Construction

    [__init__] asks the screen saver for its current state and reads the
    idle delay, in seconds, from the session configuration.

    Modelled from the spec: the configuration reader is outside the
    sources; [get_idle_delay] answers 0 when the key is unset or unknown. *)

Definition client_get_int (stored : option Z) : Z :=
  match stored with
  | Some d => d
  | None => 0%Z
  end.

Definition init (GetActive : bool) (idle_delay : option Z) : AutoTracker :=
  let d := client_get_int idle_delay in
  {| screensaver_active := GetActive;
     screen_locked := false;
     timeout_minutes := if Z_truthy d then truediv d 60 else 0 |}.

(** The process right after [AutoTracker()]: [is_screensaver_active] has
    logged the state it found, nothing was sent to hamster yet. *)
Definition startup (GetActive : bool) (idle_delay : option Z)
    (l : L) (t0 : datetime) : World :=
  {| self := init GetActive idle_delay;
     hamster := l;
     clock := t0;
     log := [(DEBUG, ScreenSaver_active GetActive)];
     calls := [] |}.

(** *** The main loop

    [run] registers [on_active_changed] for the [ActiveChanged] signal and
    [on_locked] as a filter for the messages the match rule lets through,
    then hands control to the main loop.  The loop calls one handler per
    event, in arrival order; what a handler returns or raises is for the bus
    library to deal with, the object stays as the handler left it. *)

Inductive Event :=
| BusMessage (msg : Message)
| ActiveChanged (screensaver_active : bool).

Definition LockRequested : Event :=
  BusMessage {| get_interface := Some "org.gnome.ScreenSaver"%string;
                get_member := Some "Lock"%string |}.

Definition handle (e : Event) : M unit :=
  match e with
  | BusMessage msg => on_locked msg
  | ActiveChanged a => on_active_changed a
  end.

Definition at_time (t : datetime) (w : World) : World :=
  {| self := self w; hamster := hamster w; clock := t;
     log := log w; calls := calls w |}.

Definition dispatch (te : datetime * Event) (w : World) : World :=
  snd (handle (snd te) (at_time (fst te) w)).

Definition run (events : list (datetime * Event)) (w : World) : World :=
  fold_left (fun w te => dispatch te w) events w.

(** *** Ledger commands

    The spec speaks of two commands and says what each is to do.
    [CloseOpenEntry] is one call of [StopTracking].  [UpsertOpenEntry]
    fetches the facts of the day and, when the fetch is answered, goes on
    with the one change the answer asks for: the latest fact is sent back
    under its id with its end cleared, or, the day having none, a fact that
    starts now is added with the default category and activity.
    [calls_of] spells a command out in calls, in the spec's words; the
    handlers are compared with it. *)

Inductive Command :=
| CloseOpenEntry (at_ : DBusDate)
| UpsertOpenEntry.

Definition is_write (c : MethodCall) : bool :=
  match c with
  | Call_GetTodaysFactsJSON => false
  | _ => true
  end.

Definition calls_of (now : datetime) (l : L) (c : Command)
    : list MethodCall :=
  match c with
  | CloseOpenEntry d => [Call_StopTracking d]
  | UpsertOpenEntry =>
      Call_GetTodaysFactsJSON ::
      match fst (GetTodaysFactsJSON now l) with
      | inl _ => []
      | inr facts =>
          match rev facts with
          | latest_json :: _ =>
              let fact := from_dbus_fact_json latest_json in
              [Call_UpdateFactJSON (id fact)
                 (to_dbus_fact_json (set_range_end fact None))]
          | [] =>
              [Call_AddFactJSON
                 (to_dbus_fact_json
                    {| id := None;
                       category := default_category;
                       activity := default_activity;
                       range := {| start := now; end_ := None |} |})]
          end
      end
  end.

(** The start of idleness in the spec's words: now when the screen was
    locked or no timeout is set, the timeout before now otherwise. *)
Definition spec_idle_start (s : AutoTracker) (now : datetime) : datetime :=
  if screen_locked s || Qeq_bool (timeout_minutes s) 0
  then now
  else now - timedelta (timeout_minutes s).

(** The command an event stands for: none for a bus message, a close at
    the start of idleness for [ActiveChanged(true)], an upsert for
    [ActiveChanged(false)]. *)
Definition command_of (s : AutoTracker) (now : datetime) (e : Event)
    : list Command :=
  match e with
  | BusMessage _ => []
  | ActiveChanged true => [CloseOpenEntry (to_dbus_date (spec_idle_start s now))]
  | ActiveChanged false => [UpsertOpenEntry]
  end.

(** The calls a sequence of events stands for: event by event, the calls
    of its command in the world the event finds. *)
Fixpoint run_calls (events : list (datetime * Event)) (w : World)
    : list MethodCall :=
  match events with
  | [] => []
  | te :: rest =>
      flat_map (calls_of (fst te) (hamster w))
        (command_of (self w) (fst te) (snd te))
      ++ run_calls rest (dispatch te w)
  end.

(** The calls a step added to the trace. *)
Definition issued (w w' : World) (cs : list MethodCall) : Prop :=
  calls w' = calls w ++ cs.

End Tracker.

Arguments Returned {D A} a.
Arguments Raised {D A} e.

(** ** A ledger

    Modelled from the spec: the hamster service is outside the sources.
    The ledger client of the spec fetches the entries of the current day,
    closes the open entry, reopens an entry under its existing id, or
    creates an entry and hands out its id; a call naming an unknown id is
    rejected.  The ledger owns the ids: it keeps each stored fact next to
    the id it gave it. *)

Module Ledger.

Record t := {
  entries : list (Z * Fact);
  next_id : Z }.

Definition day (x : datetime) : Z := Qfloor (x / 1440).

Definition is_today (now : datetime) (e : Z * Fact) : bool :=
  (day (start (range (snd e))) =? day now)%Z.

Definition todays_entries (now : datetime) (l : t) : list (Z * Fact) :=
  filter (is_today now) (entries l).

(** A stored fact as the service reports it, with its id filled in. *)
Definition stored (e : Z * Fact) : Fact :=
  {| id := Some (fst e);
     category := category (snd e);
     activity := activity (snd e);
     range := range (snd e) |}.

Definition amend (i : Z) (g : Fact -> Fact) (es : list (Z * Fact))
    : list (Z * Fact) :=
  map (fun e => if (fst e =? i)%Z then (fst e, g (snd e)) else e) es.

Definition known (i : Z) (es : list (Z * Fact)) : bool :=
  existsb (fun e => (fst e =? i)%Z) es.

Definition get_todays_facts (now : datetime) (l : t)
    : (string + list Fact) * t :=
  (inr (map stored (todays_entries now l)), l).

(** Closing: the latest entry of the day gets its end set if it is open;
    closing a closed entry changes nothing. *)
Definition stop_tracking (now : datetime) (end_time : datetime) (l : t)
    : (string + unit) * t :=
  match rev (todays_entries now l) with
  | (i, f) :: _ =>
      match end_ (range f) with
      | None =>
          (inr tt,
           {| entries := amend i (fun g => set_range_end g (Some end_time))
                               (entries l);
              next_id := next_id l |})
      | Some _ => (inr tt, l)
      end
  | [] => (inr tt, l)
  end.

Definition update_fact (now : datetime) (fact_id : option Z) (json : Fact)
    (l : t) : (string + Z) * t :=
  match fact_id with
  | Some i =>
      if known i (entries l)
      then (inr i,
            {| entries := amend i (fun _ => json) (entries l);
               next_id := next_id l |})
      else (inl "unknown entry id"%string, l)
  | None => (inl "unknown entry id"%string, l)
  end.

Definition add_fact (now : datetime) (json : Fact) (l : t)
    : (string + Z) * t :=
  (inr (next_id l),
   {| entries := entries l ++ [(next_id l, json)];
      next_id := (next_id l + 1)%Z |}).

End Ledger.

(** Dates and facts travel as they are; a failure carries its message. *)
#[global] Instance plain_dbus : DBus := {|
  DBusDate := datetime;
  FactJSON := Fact;
  DBusException := string;
  to_dbus_date := fun x => x;
  to_dbus_fact_json := fun f => f;
  from_dbus_fact_json := fun f => f |}.

#[global] Instance ledger_service : @Hamster plain_dbus Ledger.t := {|
  StopTracking := Ledger.stop_tracking;
  GetTodaysFactsJSON := Ledger.get_todays_facts;
  UpdateFactJSON := Ledger.update_fact;
  AddFactJSON := Ledger.add_fact |}.

(** A service that cannot be reached: every call fails. *)
Inductive Down := down.

#[global] Instance unreachable_service : @Hamster plain_dbus Down := {|
  StopTracking := fun _ _ l => (inl "unavailable"%string, l);
  GetTodaysFactsJSON := fun _ l => (inl "unavailable"%string, l);
  UpdateFactJSON := fun _ _ _ l => (inl "unavailable"%string, l);
  AddFactJSON := fun _ _ l => (inl "unavailable"%string, l) |}.

(** A service that answers the query and fails on every change. *)
Inductive ReadOnly := read_only (today : list Fact).

#[global] Instance read_only_service : @Hamster plain_dbus ReadOnly := {|
  StopTracking := fun _ _ l => (inl "rejected"%string, l);
  GetTodaysFactsJSON :=
    fun _ l => match l with read_only fs => (inr fs, l) end;
  UpdateFactJSON := fun _ _ _ l => (inl "rejected"%string, l);
  AddFactJSON := fun _ _ l => (inl "rejected"%string, l) |}.

(** The latest entry of the day, if there is one. *)
Definition latest (now : datetime) (l : Ledger.t) : option Fact :=
  match rev (Ledger.todays_entries now l) with
  | e :: _ => Some (Ledger.stored e)
  | [] => None
  end.

(** ** A working day

    The tracker starts at 08:00 with the screen in use and an idle delay of
    600 seconds, once against an empty ledger and once against a service
    that is down. *)

Definition empty_ledger : Ledger.t :=
  {| Ledger.entries := []; Ledger.next_id := 1 |}.

Definition morning : @World plain_dbus Ledger.t :=
  startup false (Some 600%Z) empty_ledger 480.

Definition morning_down : @World plain_dbus Down :=
  startup false (Some 600%Z) down 480.

(** The same against a service that answers the query and rejects every
    change, with nothing stored for the day and with one closed fact. *)
Definition work_fact : Fact :=
  {| id := Some 1%Z; category := "Work"; activity := "Work";
     range := {| start := 540; end_ := Some 570 |} |}.

Definition morning_read_only : @World plain_dbus ReadOnly :=
  startup false (Some 600%Z) (read_only []) 480.

Definition evening_read_only : @World plain_dbus ReadOnly :=
  startup true (Some 600%Z) (read_only [work_fact]) 480.

(** 08:59, the user locks the screen by hand. *)
Definition lock_pending : @World plain_dbus Ledger.t :=
  dispatch (539, LockRequested) morning.

(** 09:00 unlock, 09:30 the screen saver comes on. *)
Definition away : @World plain_dbus Ledger.t :=
  run [(540, ActiveChanged false); (570, ActiveChanged true)] morning.

(** A bus message that is no lock call. *)
Definition get_active_call : Message :=
  {| get_interface := Some "org.gnome.ScreenSaver"%string;
     get_member := Some "GetActive"%string |}.

(** ** What a write may be

    A call that cannot close or rewrite an entry, given what the service
    reports for the day at the time of the call: an update sends the last
    fact reported back under its own id with nothing changed but the end,
    which is cleared; an insertion is made only when nothing is reported,
    of a fact of the default category and activity that starts now and has
    no end. *)
Definition leaves_open {D : DBus} {L : Type} {H : Hamster L}
    (now : datetime) (l : L) (c : @MethodCall D) : Prop :=
  match c with
  | Call_StopTracking _ => True
  | Call_GetTodaysFactsJSON => True
  | Call_UpdateFactJSON fact_id json =>
      exists fs j l1,
        GetTodaysFactsJSON now l = (inr (fs ++ [j]), l1) /\
        fact_id = id (from_dbus_fact_json j) /\
        json = to_dbus_fact_json
                 (set_range_end (from_dbus_fact_json j) None)
  | Call_AddFactJSON json =>
      (exists l1, GetTodaysFactsJSON now l = (inr [], l1)) /\
      json = to_dbus_fact_json
               {| id := None;
                  category := default_category;
                  activity := default_activity;
                  range := {| start := now; end_ := None |} |}
  end.

(** * Properties *)

(** ** The float quotient *)

(** Rounding moves a quotient by half a unit at most. *)
Lemma div_half_even_near (n d : Z) :
  (0 < d)%Z ->
  (- d <= 2 * (div_half_even n d * d - n) <= d)%Z.
Proof.
  intros Hd. unfold div_half_even.
  pose proof (Z.div_mod n d ltac:(lia)) as E.
  pose proof (Z.mod_pos_bound n d Hd) as B.
  destruct (Z.compare_spec (2 * (n mod d)) d) as [C | C | C].
  - destruct (Z.even (n / d)); nia.
  - nia.
  - nia.
Qed.


(** [2^e <= n/d] for the [e] that [floor_log2] finds. *)
Lemma floor_log2_low (n d : Z) :
  (0 < n)%Z -> (0 < d)%Z ->
  (d * 2 ^ Z.max 0 (floor_log2 n d) <= n * 2 ^ Z.max 0 (- floor_log2 n d))%Z.
Proof.
  intros Hn Hd. unfold floor_log2.
  set (k := (Z.log2 n - Z.log2 d)%Z).
  destruct (Z.leb_spec (d * 2 ^ Z.max 0 k) (n * 2 ^ Z.max 0 (- k))) as [T | T].
  - exact T.
  - destruct (Z.log2_spec n Hn) as [Ln _].
    destruct (Z.log2_spec d Hd) as [_ Ld].
    pose proof (Z.log2_nonneg n). pose proof (Z.log2_nonneg d).
    destruct (Z.le_gt_cases 1 k) as [K | K].
    + rewrite (Z.max_r 0 (k - 1)) by lia.
      rewrite (Z.max_l 0 (- (k - 1))) by lia. rewrite Z.pow_0_r.
      assert (E : (2 ^ Z.log2 n = 2 ^ (Z.succ (Z.log2 d)) * 2 ^ (k - 1))%Z).
      { rewrite <- Z.pow_add_r by lia. f_equal. unfold k; lia. }
      assert (0 < 2 ^ (k - 1))%Z by (apply Z.pow_pos_nonneg; lia).
      nia.
    + rewrite (Z.max_l 0 (k - 1)) by lia.
      rewrite (Z.max_r 0 (- (k - 1))) by lia. rewrite Z.pow_0_r.
      assert (E : (2 ^ Z.log2 n * 2 ^ (- (k - 1)) = 2 ^ (Z.succ (Z.log2 d)))%Z).
      { rewrite <- Z.pow_add_r by lia. f_equal. unfold k; lia. }
      assert (0 < 2 ^ (- (k - 1)))%Z by (apply Z.pow_pos_nonneg; lia).
      nia.
Qed.

(** Scaled to 53 bits the quotient is at least 2^52. *)
Lemma scaled_low (n d : Z) :
  (0 < n)%Z -> (0 < d)%Z ->
  let e := (floor_log2 n d - 52)%Z in
  (d * 2 ^ Z.max 0 e * 2 ^ 52 <= n * 2 ^ Z.max 0 (- e))%Z.
Proof.
  intros Hn Hd e.
  pose proof (@floor_log2_low n d Hn Hd) as F.
  set (E := floor_log2 n d) in *.
  destruct (Z.le_gt_cases 52 E) as [C | C].
  - rewrite (Z.max_r 0 e), (Z.max_l 0 (- e)) by (unfold e; lia).
    rewrite (Z.max_r 0 E), (Z.max_l 0 (- E)) in F by lia.
    rewrite Z.pow_0_r in *.
    replace (d * 2 ^ e * 2 ^ 52)%Z with (d * 2 ^ E)%Z; [lia |].
    rewrite <- Z.mul_assoc, <- Z.pow_add_r by (unfold e; lia).
    do 2 f_equal. unfold e; lia.
  - rewrite (Z.max_l 0 e), (Z.max_r 0 (- e)) by (unfold e; lia).
    rewrite Z.pow_0_r, Z.mul_1_r.
    destruct (Z.le_gt_cases 0 E) as [C0 | C0].
    + rewrite (Z.max_r 0 E), (Z.max_l 0 (- E)) in F by lia.
      rewrite Z.pow_0_r in F.
      replace (2 ^ 52)%Z with (2 ^ E * 2 ^ (- e))%Z.
      * assert (0 < 2 ^ (- e))%Z by (apply Z.pow_pos_nonneg; unfold e; lia).
        nia.
      * rewrite <- Z.pow_add_r by (unfold e; lia). f_equal. unfold e; lia.
    + rewrite (Z.max_l 0 E), (Z.max_r 0 (- E)) in F by lia.
      rewrite Z.pow_0_r in F.
      replace (2 ^ (- e))%Z with (2 ^ (- E) * 2 ^ 52)%Z.
      * nia.
      * rewrite <- Z.pow_add_r by lia. f_equal. unfold e; lia.
Qed.

(** The double is within [2^-53] of the quotient, relatively. *)
Lemma nearest_double_bounds (n d : Z) :
  (0 < n)%Z -> (0 < d)%Z ->
  inject_Z (n * (2 ^ 53 - 1)) <= nearest_double n d * inject_Z (d * 2 ^ 53)
  /\ nearest_double n d * inject_Z (d * 2 ^ 53) <= inject_Z (n * (2 ^ 53 + 1)).
Proof.
  intros Hn Hd. unfold nearest_double.
  set (e := (floor_log2 n d - 52)%Z).
  pose proof (@scaled_low n d Hn Hd) as S; cbv zeta in S. fold e in S.
  set (A := (2 ^ Z.max 0 (- e))%Z) in *.
  set (B := (2 ^ Z.max 0 e)%Z) in *.
  assert (HA : (0 < A)%Z) by (apply Z.pow_pos_nonneg; lia).
  assert (HB : (0 < B)%Z) by (apply Z.pow_pos_nonneg; lia).
  pose proof (@div_half_even_near (n * A) (d * B) ltac:(nia)) as R.
  set (m := div_half_even (n * A) (d * B)) in *.
  rewrite Qred_correct.
  assert (HP : (2 ^ 53 = 2 * 2 ^ 52)%Z) by reflexivity.
  set (P := (2 ^ 53)%Z) in *. set (P2 := (2 ^ 52)%Z) in *.
  assert (H2 : (0 < P2)%Z) by (apply Z.pow_pos_nonneg; lia).
  clearbody P P2 A B m.
  unfold Qle, Qmult, inject_Z; simpl.
  rewrite Pos.mul_1_r, Z2Pos.id by exact HA. rewrite !Z.mul_1_r.
  subst P.
  assert (U : (2 * (m * (d * B) - n * A) * P2 <= d * B * P2)%Z)
    by (apply Z.mul_le_mono_nonneg_r; lia).
  assert (V : (- (d * B) * P2 <= 2 * (m * (d * B) - n * A) * P2)%Z)
    by (apply Z.mul_le_mono_nonneg_r; lia).
  split; nia.
Qed.

Lemma nearest_double_pos (n d : Z) :
  (0 < n)%Z -> (0 < d)%Z -> 0 < nearest_double n d.
Proof.
  intros Hn Hd.
  destruct (@nearest_double_bounds n d Hn Hd) as [L _].
  assert (0 < inject_Z (n * (2 ^ 53 - 1))).
  { unfold Qlt; simpl. rewrite Z.mul_1_r.
    apply Z.mul_pos_pos; [exact Hn | reflexivity]. }
  assert (0 < inject_Z (d * 2 ^ 53)).
  { unfold Qlt; simpl. rewrite Z.mul_1_r.
    apply Z.mul_pos_pos; [exact Hd | reflexivity]. }
  destruct (Qlt_le_dec 0 (nearest_double n d)) as [P | P]; [exact P |].
  exfalso.
  assert (nearest_double n d * inject_Z (d * 2 ^ 53) <= 0).
  { rewrite <- (Qmult_0_l (inject_Z (d * 2 ^ 53))).
    apply Qmult_le_compat_r; [exact P | apply Qlt_le_weak; assumption]. }
  lra.
Qed.


Lemma truediv_pos (a : Z) (b : positive) : (0 < a)%Z -> 0 < truediv a b.
Proof.
  destruct a as [| n | n]; try lia. intros _.
  apply nearest_double_pos; reflexivity.
Qed.





Section TrackerFacts.

Context `{D : DBus} {L : Type} `{H : !Hamster L}.

Local Abbreviation world := (@World D L).

(** ** What each handler does to the world *)

Lemma dispatch_lock (t : datetime) (w : world) :
  dispatch (t, LockRequested) w =
  {| self := {| screensaver_active := screensaver_active (self w);
                screen_locked := true;
                timeout_minutes := timeout_minutes (self w) |};
     hamster := hamster w;
     clock := t;
     log := log w ++ [(DEBUG, Lock_received)];
     calls := calls w |}.
Proof. reflexivity. Qed.

Lemma dispatch_message (t : datetime) (msg : Message) (w : world) :
  let w' := dispatch (t, BusMessage msg) w in
  hamster w' = hamster w /\ calls w' = calls w /\ clock w' = t /\
  screensaver_active (self w') = screensaver_active (self w) /\
  timeout_minutes (self w') = timeout_minutes (self w) /\
  (screen_locked (self w') = screen_locked (self w) \/
   screen_locked (self w') = true).
Proof.
  unfold dispatch, handle, on_locked; simpl.
  destruct (is_str (get_interface msg) "org.gnome.ScreenSaver"
            && is_str (get_member msg) "Lock"); simpl; auto 10.
Qed.

Lemma dispatch_active_true (t : datetime) (w : world) :
  let s := self w in
  let ts := if negb (screen_locked s) && Q_truthy (timeout_minutes s)
            then t - timedelta (timeout_minutes s) else t in
  let reply := StopTracking t (to_dbus_date ts) (hamster w) in
  dispatch (t, ActiveChanged true) w =
  {| self := {| screensaver_active := true;
                screen_locked := screen_locked s;
                timeout_minutes := timeout_minutes s |};
     hamster := snd reply;
     clock := t;
     log := match fst reply with
            | inr r => ((log w ++ [(DEBUG, active_changed_called true)])
                          ++ [(INFO, stop_current_activity)])
                         ++ [(INFO, Stopped_tracking r)]
            | inl _ => (log w ++ [(DEBUG, active_changed_called true)])
                         ++ [(INFO, stop_current_activity)]
            end;
     calls := calls w ++ [Call_StopTracking (to_dbus_date ts)] |}.
Proof.
  cbv zeta.
  unfold dispatch, handle, on_active_changed, stop_activity, idle_start,
    remote, bind, get_self, put_self, set_screensaver_active, logger,
    datetime_now, ret; simpl.
  destruct (negb (screen_locked (self w))
            && Q_truthy (timeout_minutes (self w))); simpl;
    match goal with
    | |- context [StopTracking ?a ?b ?c] =>
        destruct (StopTracking a b c) as [[e | r] l']
    end; reflexivity.
Qed.

Ltac step_active_changed :=
  unfold dispatch, handle, on_active_changed, resume_activity,
    get_todays_activities, remote, bind, get_self, put_self,
    set_screensaver_active, set_screen_locked, logger, datetime_now, ret;
  simpl.

(** [ActiveChanged(false)], the service has facts for today. *)
Lemma dispatch_active_false_reopen (t : datetime) (w : world)
    (fs : list FactJSON) (j : FactJSON) (l1 : L) :
  GetTodaysFactsJSON t (hamster w) = (inr (fs ++ [j]), l1) ->
  let act := set_range_end (from_dbus_fact_json j) None in
  let json := to_dbus_fact_json act in
  let reply := UpdateFactJSON t (id act) json l1 in
  dispatch (t, ActiveChanged false) w =
  {| self := {| screensaver_active := false;
                screen_locked := false;
                timeout_minutes := timeout_minutes (self w) |};
     hamster := snd reply;
     clock := t;
     log := match fst reply with
            | inr r => (((log w ++ [(DEBUG, active_changed_called false)])
                           ++ [(INFO, resume_or_start_new_activity)])
                          ++ [(DEBUG, Update_fact json)])
                         ++ [(DEBUG, Updated_fact r)]
            | inl _ => ((log w ++ [(DEBUG, active_changed_called false)])
                          ++ [(INFO, resume_or_start_new_activity)])
                         ++ [(DEBUG, Update_fact json)]
            end;
     calls := calls w ++ [Call_GetTodaysFactsJSON;
                          Call_UpdateFactJSON (id act) json] |}.
Proof.
  intros Hget; cbv zeta.
  step_active_changed.
  rewrite Hget, rev_unit; simpl.
  match goal with
  | |- context [UpdateFactJSON ?a ?b ?c ?d] =>
      destruct (UpdateFactJSON a b c d) as [[e | r] l']
  end; simpl; rewrite <- (app_assoc (calls w)); reflexivity.
Qed.

(** [ActiveChanged(false)], the service has nothing for today. *)
Lemma dispatch_active_false_create (t : datetime) (w : world) (l1 : L) :
  GetTodaysFactsJSON t (hamster w) = (inr [], l1) ->
  let act := {| id := None;
                category := default_category;
                activity := default_activity;
                range := {| start := t; end_ := None |} |} in
  let json := to_dbus_fact_json act in
  let reply := AddFactJSON t json l1 in
  dispatch (t, ActiveChanged false) w =
  {| self := {| screensaver_active := false;
                screen_locked := false;
                timeout_minutes := timeout_minutes (self w) |};
     hamster := snd reply;
     clock := t;
     log := match fst reply with
            | inr r => ((log w ++ [(DEBUG, active_changed_called false)])
                          ++ [(INFO, resume_or_start_new_activity)])
                         ++ [(DEBUG, Added_fact r)]
            | inl _ => (log w ++ [(DEBUG, active_changed_called false)])
                         ++ [(INFO, resume_or_start_new_activity)]
            end;
     calls := calls w ++ [Call_GetTodaysFactsJSON; Call_AddFactJSON json] |}.
Proof.
  intros Hget; cbv zeta.
  step_active_changed.
  rewrite Hget; simpl.
  match goal with
  | |- context [AddFactJSON ?a ?b ?c] =>
      destruct (AddFactJSON a b c) as [[e | r] l']
  end; simpl; rewrite <- (app_assoc (calls w)); reflexivity.
Qed.

(** [ActiveChanged(false)], the query itself fails. *)
Lemma dispatch_active_false_unanswered (t : datetime) (w : world)
    (e : DBusException) (l1 : L) :
  GetTodaysFactsJSON t (hamster w) = (inl e, l1) ->
  dispatch (t, ActiveChanged false) w =
  {| self := {| screensaver_active := false;
                screen_locked := false;
                timeout_minutes := timeout_minutes (self w) |};
     hamster := l1;
     clock := t;
     log := (log w ++ [(DEBUG, active_changed_called false)])
              ++ [(INFO, resume_or_start_new_activity)];
     calls := calls w ++ [Call_GetTodaysFactsJSON] |}.
Proof.
  intros Hget.
  step_active_changed.
  rewrite Hget; reflexivity.
Qed.

(** The three cases cover every answer. *)
Lemma todays_facts_cases (t : datetime) (l : L) :
  (exists e l1, GetTodaysFactsJSON t l = (inl e, l1)) \/
  (exists l1, GetTodaysFactsJSON t l = (inr [], l1)) \/
  (exists fs j l1, GetTodaysFactsJSON t l = (inr (fs ++ [j]), l1)).
Proof.
  destruct (GetTodaysFactsJSON t l) as [[e | acts] l1].
  - left; eauto.
  - right. destruct acts as [| a acts'] using rev_ind.
    + left; eauto.
    + right; eauto.
Qed.

Lemma dispatch_active_false_self (t : datetime) (w : world) :
  self (dispatch (t, ActiveChanged false) w) =
  {| screensaver_active := false;
     screen_locked := false;
     timeout_minutes := timeout_minutes (self w) |}.
Proof.
  destruct (todays_facts_cases t (hamster w))
    as [(e & l1 & Hg) | [(l1 & Hg) | (fs & j & l1 & Hg)]].
  - rewrite (dispatch_active_false_unanswered _ _ Hg); reflexivity.
  - rewrite (dispatch_active_false_create _ _ Hg); reflexivity.
  - rewrite (dispatch_active_false_reopen _ _ _ _ Hg); reflexivity.
Qed.

Lemma dispatch_timeout (te : datetime * Event) (w : world) :
  timeout_minutes (self (dispatch te w)) = timeout_minutes (self w).
Proof.
  destruct te as [t [msg | [|]]].
  - apply dispatch_message.
  - rewrite dispatch_active_true; reflexivity.
  - rewrite dispatch_active_false_self; reflexivity.
Qed.

Lemma run_timeout (events : list (datetime * Event)) (w : world) :
  timeout_minutes (self (run events w)) = timeout_minutes (self w).
Proof.
  revert w; induction events as [| te events IH]; intros w.
  - reflexivity.
  - change (run (te :: events) w) with (run events (dispatch te w)).
    rewrite IH. apply dispatch_timeout.
Qed.

(** A message passes the test of [on_locked] only if it is the lock call. *)
Lemma lock_test (msg : Message) :
  is_str (get_interface msg) "org.gnome.ScreenSaver"
  && is_str (get_member msg) "Lock" = true ->
  BusMessage msg = LockRequested.
Proof.
  destruct msg as [[i |] [m |]]; simpl; intros Ht;
    try discriminate; try (rewrite andb_false_r in Ht; discriminate).
  apply andb_true_iff in Ht; destruct Ht as [Hi Hm].
  apply String.eqb_eq in Hi, Hm; subst; reflexivity.
Qed.

Lemma dispatch_other_message (t : datetime) (msg : Message) (w : world) :
  BusMessage msg <> LockRequested ->
  dispatch (t, BusMessage msg) w = at_time t w.
Proof.
  intros Hn. unfold dispatch, handle, on_locked; simpl.
  destruct (is_str (get_interface msg) "org.gnome.ScreenSaver"
            && is_str (get_member msg) "Lock") eqn:Ht.
  - elim Hn. apply lock_test, Ht.
  - reflexivity.
Qed.

Lemma Q_truthy_false (q : Q) : Q_truthy q = false <-> q == 0.
Proof.
  unfold Q_truthy. rewrite negb_false_iff. apply Qeq_bool_iff.
Qed.

Lemma Q_truthy_pos (q : Q) : 0 < q -> Q_truthy q = true.
Proof.
  intros Hq. destruct (Q_truthy q) eqn:E; [reflexivity |].
  apply Q_truthy_false in E. rewrite E in Hq.
  exfalso; exact (Qlt_irrefl 0 Hq).
Qed.

(** Lock requests that arrive while the flag is already set. *)
Lemma run_locks (more : list datetime) (w : world) :
  screen_locked (self w) = true ->
  let w' := run (map (fun u => (u, LockRequested)) more) w in
  self w' = self w /\ hamster w' = hamster w /\ calls w' = calls w.
Proof.
  revert w; induction more as [| u more IH]; intros w Hs.
  - simpl; auto.
  - change (run (map (fun u => (u, LockRequested)) (u :: more)) w)
      with (run (map (fun u => (u, LockRequested)) more)
                (dispatch (u, LockRequested) w)).
    cbv zeta in *.
    destruct (IH (dispatch (u, LockRequested) w)) as (E1 & E2 & E3).
    + rewrite dispatch_lock; reflexivity.
    + rewrite E1, E2, E3, dispatch_lock; simpl.
      destruct (self w) as [a k m]; simpl in *; subst k; auto.
Qed.

(** One [ActiveChanged(false)]: the calls of one upsert. *)
Lemma dispatch_active_false_calls (t : datetime) (w : world) :
  issued w (dispatch (t, ActiveChanged false) w)
    (calls_of t (hamster w) UpsertOpenEntry).
Proof.
  unfold issued, calls_of.
  destruct (todays_facts_cases t (hamster w))
    as [(e & l1 & Hg) | [(l1 & Hg) | (fs & j & l1 & Hg)]].
  - rewrite (dispatch_active_false_unanswered _ _ Hg), Hg; reflexivity.
  - rewrite (dispatch_active_false_create _ _ Hg), Hg; reflexivity.
  - rewrite (dispatch_active_false_reopen _ _ _ _ Hg), Hg; simpl.
    rewrite rev_unit; reflexivity.
Qed.

(** The start of idleness as the code takes it is the spec's. *)
Lemma idle_start_spec (s : AutoTracker) (t : datetime) :
  (if negb (screen_locked s) && Q_truthy (timeout_minutes s)
   then t - timedelta (timeout_minutes s) else t)
  = spec_idle_start s t.
Proof.
  unfold spec_idle_start, Q_truthy.
  destruct (screen_locked s), (Qeq_bool (timeout_minutes s) 0); reflexivity.
Qed.

(** One event: the calls of the command it stands for. *)
Lemma dispatch_calls (t : datetime) (e : Event) (w : world) :
  issued w (dispatch (t, e) w)
    (flat_map (calls_of t (hamster w)) (command_of (self w) t e)).
Proof.
  destruct e as [msg | [|]]; simpl flat_map.
  - unfold issued. destruct (dispatch_message t msg w) as (_ & Hc & _).
    cbv zeta in Hc; rewrite Hc, app_nil_r; reflexivity.
  - unfold issued. rewrite dispatch_active_true; simpl.
    rewrite idle_start_spec; reflexivity.
  - rewrite app_nil_r. apply dispatch_active_false_calls.
Qed.

(** A run of re-asserted [ActiveChanged(false)]. *)
Lemma run_active_false (ts : list datetime) (w : world) :
  let w' := run (map (fun u => (u, ActiveChanged false)) ts) w in
  (ts <> [] -> self w' = {| screensaver_active := false;
                            screen_locked := false;
                            timeout_minutes := timeout_minutes (self w) |}) /\
  (ts = [] -> self w' = self w).
Proof.
  revert w; induction ts as [| u ts IH]; intros w.
  - simpl. split; congruence.
  - change (run (map (fun u => (u, ActiveChanged false)) (u :: ts)) w)
      with (run (map (fun u => (u, ActiveChanged false)) ts)
                (dispatch (u, ActiveChanged false) w)).
    cbv zeta in *.
    destruct (IH (dispatch (u, ActiveChanged false) w)) as (Hne & Hnil).
    split; [| discriminate].
    intros _. destruct ts as [| u' ts'].
    + rewrite (Hnil eq_refl). apply dispatch_active_false_self.
    + rewrite Hne by discriminate.
      rewrite dispatch_active_false_self; reflexivity.
Qed.

Lemma run_no_lock_unlocked (pre : list (datetime * Event)) (w : world) :
  Forall (fun te => snd te <> LockRequested) pre ->
  screen_locked (self w) = false ->
  screen_locked (self (run pre w)) = false.
Proof.
  intros Hpre; revert w.
  induction Hpre as [| te pre Hte _ IH]; intros w Hw.
  - exact Hw.
  - change (run (te :: pre) w) with (run pre (dispatch te w)).
    apply IH. destruct te as [t [msg | [|]]]; simpl in Hte.
    + rewrite (dispatch_other_message _ _ Hte); exact Hw.
    + rewrite dispatch_active_true; exact Hw.
    + rewrite dispatch_active_false_self; reflexivity.
Qed.

(** What a handler answers when the service lets it down. *)
Lemma stop_failure (t : datetime) (w : world) (x : DBusException) (l' : L) :
  let s := self w in
  let ts := if negb (screen_locked s) && Q_truthy (timeout_minutes s)
            then t - timedelta (timeout_minutes s) else t in
  StopTracking t (to_dbus_date ts) (hamster w) = (inl x, l') ->
  fst (handle (ActiveChanged true) (at_time t w)) = Raised x.
Proof.
  cbv zeta.
  unfold handle, on_active_changed, stop_activity, idle_start,
    remote, bind, get_self, put_self, set_screensaver_active, logger,
    datetime_now, ret; simpl.
  destruct (negb (screen_locked (self w))
            && Q_truthy (timeout_minutes (self w))); simpl;
    intros ->; reflexivity.
Qed.

Lemma query_failure (t : datetime) (w : world) (x : DBusException) (l' : L) :
  GetTodaysFactsJSON t (hamster w) = (inl x, l') ->
  fst (handle (ActiveChanged false) (at_time t w)) = Raised x.
Proof.
  unfold handle. step_active_changed. intros ->; reflexivity.
Qed.

Lemma update_failure (t : datetime) (w : world) (fs : list FactJSON)
    (j : FactJSON) (l1 l' : L) (x : DBusException) :
  GetTodaysFactsJSON t (hamster w) = (inr (fs ++ [j]), l1) ->
  let act := set_range_end (from_dbus_fact_json j) None in
  UpdateFactJSON t (id act) (to_dbus_fact_json act) l1 = (inl x, l') ->
  fst (handle (ActiveChanged false) (at_time t w)) = Raised x.
Proof.
  cbv zeta. unfold handle. step_active_changed.
  intros ->. rewrite rev_unit; simpl. intros ->; reflexivity.
Qed.

Lemma add_failure (t : datetime) (w : world) (l1 l' : L)
    (x : DBusException) :
  GetTodaysFactsJSON t (hamster w) = (inr [], l1) ->
  AddFactJSON t (to_dbus_fact_json
                   {| id := None;
                      category := default_category;
                      activity := default_activity;
                      range := {| start := t; end_ := None |} |}) l1
    = (inl x, l') ->
  fst (handle (ActiveChanged false) (at_time t w)) = Raised x.
Proof.
  unfold handle. step_active_changed.
  intros ->; simpl. intros ->; reflexivity.
Qed.

(** ** The claims *)

(** C1: an [ActiveChanged(true)] handled at wall time [t] passes to
    [StopTracking] the time [t] when the screen was locked explicitly or no
    timeout is configured, and [t] minus the timeout when it was not locked
    and the timeout is positive. *)
Theorem stop_activity_timestamp (t : datetime) (w : world) :
  let w' := dispatch (t, ActiveChanged true) w in
  (screen_locked (self w) = true \/ timeout_minutes (self w) == 0 ->
   issued w w' [Call_StopTracking (to_dbus_date t)]) /\
  (screen_locked (self w) = false -> 0 < timeout_minutes (self w) ->
   issued w w'
     [Call_StopTracking
        (to_dbus_date (t - timedelta (timeout_minutes (self w))))]).
Proof.
  cbv zeta; unfold issued; rewrite dispatch_active_true; simpl; split.
  - intros [Hl | Hz].
    + rewrite Hl; reflexivity.
    + apply Q_truthy_false in Hz; rewrite Hz, andb_false_r; reflexivity.
  - intros Hl Hp. rewrite Hl, (Q_truthy_pos Hp); reflexivity.
Qed.

(** C3: handling [ActiveChanged(true)] leaves the locked flag as it was;
    handling [ActiveChanged(false)] sets it to false. *)
Theorem locked_after_active_changed (t : datetime) (w : world) :
  screen_locked (self (dispatch (t, ActiveChanged true) w))
    = screen_locked (self w) /\
  screen_locked (self (dispatch (t, ActiveChanged false) w)) = false.
Proof.
  split.
  - rewrite dispatch_active_true; reflexivity.
  - rewrite dispatch_active_false_self; reflexivity.
Qed.

(** C6: a lock request sets the locked flag and does nothing else: the
    activation flag and the timeout stay, nothing is sent to the ledger, and
    any number of further lock requests leaves the object, the ledger and
    the calls made as the first one left them. *)
Theorem lock_requested_effect (t : datetime) (w : world)
    (more : list datetime) :
  let w' := dispatch (t, LockRequested) w in
  let w'' := run (map (fun u => (u, LockRequested)) more) w' in
  self w' = {| screensaver_active := screensaver_active (self w);
               screen_locked := true;
               timeout_minutes := timeout_minutes (self w) |} /\
  issued w w' [] /\
  hamster w' = hamster w /\
  self w'' = self w' /\ hamster w'' = hamster w' /\ calls w'' = calls w'.
Proof.
  cbv zeta. rewrite dispatch_lock.
  split; [reflexivity |].
  split; [unfold issued; simpl; symmetry; apply app_nil_r |].
  split; [reflexivity |].
  apply run_locks; reflexivity.
Qed.

(** C4, as amended: re-asserted events are accepted.  Every
    [ActiveChanged(false)] received while the activation flag is false
    makes the calls of an upsert again, the fetch and the one change its
    answer asks for, and leaves the activation flag false; the locked flag
    is false afterwards, which is no change when it was false before, as it
    is from the second event of such a sequence on.  Every
    [ActiveChanged(true)] received while the activation flag is true
    computes the close time anew and calls [StopTracking] again. *)
Theorem reasserted_events (ts : list datetime) (t : datetime) (w : world) :
  (screensaver_active (self w) = false ->
   let w' := run (map (fun u => (u, ActiveChanged false)) ts) w in
   (forall ts1 u ts2,
      ts = ts1 ++ u :: ts2 ->
      let w1 := run (map (fun u => (u, ActiveChanged false)) ts1) w in
      issued w1 (dispatch (u, ActiveChanged false) w1)
        (calls_of u (hamster w1) UpsertOpenEntry)) /\
   screensaver_active (self w') = false /\
   (ts <> [] -> screen_locked (self w') = false) /\
   (screen_locked (self w) = false -> self w' = self w)) /\
  (screensaver_active (self w) = true ->
   let w' := dispatch (t, ActiveChanged true) w in
   self w' = self w /\
   issued w w'
     [Call_StopTracking
        (to_dbus_date
           (if negb (screen_locked (self w))
               && Q_truthy (timeout_minutes (self w))
            then t - timedelta (timeout_minutes (self w))
            else t))]).
Proof.
  split.
  - intros Ha; cbv zeta.
    destruct (run_active_false ts w) as (Hne & Hnil).
    split; [intros ts1 u ts2 _; apply dispatch_active_false_calls |].
    destruct ts as [| u ts'].
    + rewrite (Hnil eq_refl). repeat split; congruence.
    + rewrite Hne by discriminate; simpl.
      repeat split. intros Hl.
      destruct (self w) as [a k m]; simpl in *; subst; reflexivity.
  - intros Ha; cbv zeta; unfold issued.
    rewrite dispatch_active_true; simpl. split; [| reflexivity].
    destruct (self w) as [a k m]; simpl in *; subst; reflexivity.
Qed.

(** C5, as amended: the locked flag is cleared by the handling of
    [ActiveChanged(false)] and by nothing else.  In every run, an event that
    finds the flag set and leaves it clear is an [ActiveChanged(false)];
    every [ActiveChanged(false)] leaves it clear, so it is clear after every
    step that takes the activation flag from true to false. *)
Theorem locked_cleared_on_resume (pre : list (datetime * Event))
    (te : datetime * Event) (w0 : world) :
  let w := run pre w0 in
  let w' := dispatch te w in
  (snd te = ActiveChanged false -> screen_locked (self w') = false) /\
  (screen_locked (self w) = true -> screen_locked (self w') = false ->
   snd te = ActiveChanged false) /\
  (screensaver_active (self w) = true ->
   screensaver_active (self w') = false ->
   snd te = ActiveChanged false /\ screen_locked (self w') = false).
Proof.
  cbv zeta. generalize (run pre w0); intros w.
  destruct te as [t [msg | [|]]]; simpl.
  - destruct (dispatch_message t msg w) as (_ & _ & _ & Ha & _ & [Hl | Hl]);
      repeat split; try discriminate; intros; congruence.
  - rewrite dispatch_active_true; simpl.
    repeat split; try discriminate; intros; congruence.
  - rewrite dispatch_active_false_self; simpl; auto.
Qed.

(** C8: one event, at most one ledger command, and the calls it makes
    are the calls of that command.  A bus message, the lock request among
    them, stands for no command and makes no call; [ActiveChanged(true)]
    stands for one close, the one call of [StopTracking];
    [ActiveChanged(false)] stands for one upsert: the fetch alone when it
    fails, the fetch and one update when it reports facts, the fetch and
    one insertion when it reports none. *)
Theorem one_command_per_event (t : datetime) (e : Event) (w : world) :
  let cmds := command_of (self w) t e in
  let cs := flat_map (calls_of t (hamster w)) cmds in
  issued w (dispatch (t, e) w) cs /\
  (length cmds <= 1)%nat /\
  (length (filter is_write cs) <= 1)%nat /\
  match e with
  | BusMessage _ => cmds = [] /\ cs = []
  | ActiveChanged true =>
      exists d, cmds = [CloseOpenEntry d] /\ cs = [Call_StopTracking d]
  | ActiveChanged false =>
      cmds = [UpsertOpenEntry] /\
      exists change,
        cs = Call_GetTodaysFactsJSON :: change /\
        match fst (GetTodaysFactsJSON t (hamster w)) with
        | inl _ => change = []
        | inr facts =>
            match rev facts with
            | latest_json :: _ =>
                change =
                [Call_UpdateFactJSON
                   (id (from_dbus_fact_json latest_json))
                   (to_dbus_fact_json
                      (set_range_end (from_dbus_fact_json latest_json)
                         None))]
            | [] =>
                change =
                [Call_AddFactJSON
                   (to_dbus_fact_json
                      {| id := None;
                         category := default_category;
                         activity := default_activity;
                         range := {| start := t; end_ := None |} |})]
            end
        end
  end.
Proof.
  cbv zeta. split; [apply dispatch_calls |].
  destruct e as [msg | [|]]; simpl.
  - auto.
  - repeat split; auto. eauto.
  - rewrite app_nil_r. repeat split; auto.
    + destruct (fst (GetTodaysFactsJSON t (hamster w))) as [x | facts];
        [simpl; auto |].
      destruct (rev facts); simpl; auto.
    + eexists; split; [reflexivity |].
      destruct (fst (GetTodaysFactsJSON t (hamster w))) as [x | facts];
        [reflexivity |].
      destruct (rev facts); reflexivity.
Qed.

(** C9: the constructor sets the locked flag to false whatever the screen
    saver reports, so as long as no lock request is seen after startup an
    [ActiveChanged(true)] takes the time the timeout ago as the start of
    idleness, also when the screen had been locked before startup. *)
Theorem startup_unlocked (GetActive : bool) (idle_delay : option Z) (d : Z)
    (l : L) (t0 t : datetime) (pre : list (datetime * Event)) :
  screen_locked (init GetActive idle_delay) = false /\
  screensaver_active (init GetActive idle_delay) = GetActive /\
  ((0 < d)%Z ->
   Forall (fun te => snd te <> LockRequested) pre ->
   let w := run pre (startup GetActive (Some d) l t0) in
   issued w (dispatch (t, ActiveChanged true) w)
     [Call_StopTracking (to_dbus_date (t - timedelta (truediv d 60)))]).
Proof.
  split; [reflexivity |]. split; [reflexivity |].
  intros Hd Hpre; cbv zeta; unfold issued.
  rewrite dispatch_active_true; simpl.
  rewrite (run_no_lock_unlocked _ Hpre) by reflexivity.
  rewrite run_timeout; simpl.
  unfold Z_truthy. destruct (Z.eqb_spec d 0); [lia |]; simpl.
  rewrite Q_truthy_pos; [reflexivity |].
  apply truediv_pos, Hd.
Qed.


End TrackerFacts.

(** C7, as amended: the object changes before the ledger is called and
    nothing undoes the change, so after an event it is what it would be
    with any other ledger, one that answers included.  A failed call is not
    caught: the handler ends with the exception the call raised, having
    logged nothing after the call went out. *)
Theorem failure_keeps_transition (D : DBus) (L L2 : Type)
    (H : Hamster L) (H2 : Hamster L2)
    (t : datetime) (w : @World D L) (w2 : @World D L2) :
  (forall e, self w = self w2 ->
     self (dispatch (t, e) w) = self (dispatch (t, e) w2)) /\
  (forall x l',
     StopTracking t
       (to_dbus_date
          (if negb (screen_locked (self w))
              && Q_truthy (timeout_minutes (self w))
           then t - timedelta (timeout_minutes (self w))
           else t)) (hamster w) = (inl x, l') ->
     fst (handle (ActiveChanged true) (at_time t w)) = Raised x /\
     log (dispatch (t, ActiveChanged true) w)
       = (log w ++ [(DEBUG, active_changed_called true)])
           ++ [(INFO, stop_current_activity)]) /\
  (forall x l',
     GetTodaysFactsJSON t (hamster w) = (inl x, l') ->
     fst (handle (ActiveChanged false) (at_time t w)) = Raised x /\
     log (dispatch (t, ActiveChanged false) w)
       = (log w ++ [(DEBUG, active_changed_called false)])
           ++ [(INFO, resume_or_start_new_activity)]) /\
  (forall fs j l1 x l',
     GetTodaysFactsJSON t (hamster w) = (inr (fs ++ [j]), l1) ->
     UpdateFactJSON t (id (from_dbus_fact_json j))
       (to_dbus_fact_json (set_range_end (from_dbus_fact_json j) None)) l1
       = (inl x, l') ->
     fst (handle (ActiveChanged false) (at_time t w)) = Raised x /\
     log (dispatch (t, ActiveChanged false) w)
       = ((log w ++ [(DEBUG, active_changed_called false)])
            ++ [(INFO, resume_or_start_new_activity)])
           ++ [(DEBUG,
                Update_fact
                  (to_dbus_fact_json
                     (set_range_end (from_dbus_fact_json j) None)))]) /\
  (forall l1 x l',
     GetTodaysFactsJSON t (hamster w) = (inr [], l1) ->
     AddFactJSON t
       (to_dbus_fact_json
          {| id := None;
             category := default_category;
             activity := default_activity;
             range := {| start := t; end_ := None |} |}) l1
       = (inl x, l') ->
     fst (handle (ActiveChanged false) (at_time t w)) = Raised x /\
     log (dispatch (t, ActiveChanged false) w)
       = (log w ++ [(DEBUG, active_changed_called false)])
           ++ [(INFO, resume_or_start_new_activity)]).
Proof.
  repeat apply conj.
  - intros e Hs. destruct e as [msg | [|]].
    + unfold dispatch, handle, on_locked; simpl.
      destruct (is_str (get_interface msg) "org.gnome.ScreenSaver"
                && is_str (get_member msg) "Lock"); simpl;
        rewrite Hs; reflexivity.
    + rewrite !dispatch_active_true; simpl. rewrite Hs; reflexivity.
    + rewrite !dispatch_active_false_self, Hs; reflexivity.
  - intros x l' Hf. split.
    + apply (stop_failure _ _ Hf).
    + rewrite dispatch_active_true; cbv zeta.
      unfold datetime in *; rewrite Hf; reflexivity.
  - intros x l' Hf. split.
    + apply (query_failure _ _ Hf).
    + rewrite (dispatch_active_false_unanswered _ _ Hf); reflexivity.
  - intros fs j l1 x l' Hg Hf. split.
    + eapply update_failure; [exact Hg | exact Hf].
    + rewrite (dispatch_active_false_reopen _ _ _ _ Hg); cbv zeta.
      change (id (set_range_end (from_dbus_fact_json j) None))
        with (id (from_dbus_fact_json j)).
      rewrite Hf; reflexivity.
  - intros l1 x l' Hg Hf. split.
    + eapply add_failure; [exact Hg | exact Hf].
    + rewrite (dispatch_active_false_create _ _ Hg); cbv zeta.
      rewrite Hf; reflexivity.
Qed.

(** ** The ledger under the tracker *)

Section LedgerFacts.

Import Ledger.

Local Abbreviation world := (@World plain_dbus Ledger.t).

Lemma todays_same_day (t t' : datetime) (l : Ledger.t) :
  day t = day t' -> todays_entries t l = todays_entries t' l.
Proof.
  intros E. unfold todays_entries. apply filter_ext.
  intros e; unfold is_today; rewrite E; reflexivity.
Qed.

(** The last element a filter keeps, followed through a map that either
    leaves the verdict on an element alone or sends it where it sends that
    last one. *)
Lemma last_kept_map (A : Type) (p : A -> bool) (r : A -> A) (l : list A)
    (x : A) (rest : list A) :
  rev (filter p l) = x :: rest ->
  p (r x) = true ->
  (forall y, In y l -> p (r y) = p y \/ r y = r x) ->
  exists rest', rev (filter p (map r l)) = r x :: rest'.
Proof.
  revert rest; induction l as [| y l0 IH] using rev_ind; intros rest Hl Hx Hr.
  - discriminate.
  - rewrite map_app, !filter_app, !rev_app_distr in *; simpl in *.
    assert (Hr0 : forall z, In z l0 -> p (r z) = p z \/ r z = r x).
    { intros z Hz; apply Hr, in_or_app; left; exact Hz. }
    destruct (p y) eqn:Hy; simpl in Hl.
    + injection Hl as -> _. rewrite Hx; simpl; eauto.
    + destruct (Hr y) as [E | E].
      * apply in_or_app; right; left; reflexivity.
      * rewrite E, Hy; simpl. apply (IH rest); assumption.
      * rewrite E, Hx; simpl; eauto.
Qed.

Lemma todays_amend_end (t : datetime) (i : Z) (f : Fact)
    (e' : option datetime) (es rest : list (Z * Fact)) :
  rev (filter (is_today t) es) = (i, f) :: rest ->
  exists rest',
    rev (filter (is_today t)
           (amend i (fun g => set_range_end g e') es))
    = (i, set_range_end f e') :: rest'.
Proof.
  intros Hl. unfold amend.
  assert (Hin : In (i, f) (filter (is_today t) es)).
  { apply in_rev; rewrite Hl; left; reflexivity. }
  apply filter_In in Hin; destruct Hin as [_ Hp].
  destruct (last_kept_map (is_today t)
              (fun e => if (fst e =? i)%Z
                        then (fst e, set_range_end (snd e) e') else e)
              es Hl) as [rest' Hr].
  - simpl; rewrite Z.eqb_refl; exact Hp.
  - intros y _; left. destruct (fst y =? i)%Z; reflexivity.
  - simpl in Hr; rewrite Z.eqb_refl in Hr; eauto.
Qed.

Lemma todays_amend_const (t : datetime) (i : Z) (f act : Fact)
    (es rest : list (Z * Fact)) :
  rev (filter (is_today t) es) = (i, f) :: rest ->
  start (range act) = start (range f) ->
  exists rest',
    rev (filter (is_today t) (amend i (fun _ => act) es))
    = (i, act) :: rest'.
Proof.
  intros Hl Hs. unfold amend.
  assert (Hin : In (i, f) (filter (is_today t) es)).
  { apply in_rev; rewrite Hl; left; reflexivity. }
  apply filter_In in Hin; destruct Hin as [_ Hp].
  destruct (last_kept_map (is_today t)
              (fun e => if (fst e =? i)%Z then (fst e, act) else e)
              es Hl) as [rest' Hr].
  - simpl; rewrite Z.eqb_refl. unfold is_today in *; simpl in *.
    rewrite Hs; exact Hp.
  - intros y _; simpl. rewrite Z.eqb_refl.
    destruct (Z.eqb_spec (fst y) i) as [-> | _]; auto.
  - simpl in Hr; rewrite Z.eqb_refl in Hr; eauto.
Qed.

Lemma known_last (t : datetime) (i : Z) (f : Fact)
    (es rest : list (Z * Fact)) :
  rev (filter (is_today t) es) = (i, f) :: rest -> known i es = true.
Proof.
  intros Hl.
  assert (Hin : In (i, f) (filter (is_today t) es)).
  { apply in_rev; rewrite Hl; left; reflexivity. }
  apply filter_In in Hin; destruct Hin as [Hin _].
  unfold known. apply existsb_exists. exists (i, f); split; [exact Hin |].
  apply Z.eqb_refl.
Qed.

Lemma amend_length (i : Z) (g : Fact -> Fact) (es : list (Z * Fact)) :
  length (amend i g es) = length es.
Proof. apply length_map. Qed.

(** [ActiveChanged(false)] when the day has entries: the latest is
    reopened under its id. *)
Lemma ledger_resume_reopen (t : datetime) (w : world) (i : Z) (f : Fact)
    (rest : list (Z * Fact)) :
  rev (todays_entries t (hamster w)) = (i, f) :: rest ->
  let act := set_range_end (stored (i, f)) None in
  let w' := dispatch (t, ActiveChanged false) w in
  hamster w' = {| entries := amend i (fun _ => act) (entries (hamster w));
                  next_id := next_id (hamster w) |} /\
  issued w w' [Call_GetTodaysFactsJSON; Call_UpdateFactJSON (Some i) act].
Proof.
  intros Hl; cbv zeta.
  assert (Hg : GetTodaysFactsJSON t (hamster w)
               = (inr (map stored (rev rest) ++ [stored (i, f)]), hamster w)).
  { simpl. unfold get_todays_facts.
    rewrite <- (rev_involutive (todays_entries t (hamster w))), Hl; simpl.
    rewrite map_app; reflexivity. }
  rewrite (dispatch_active_false_reopen _ _ _ _ Hg); simpl.
  unfold issued, update_fact; simpl.
  rewrite (known_last _ _ Hl); simpl. split; reflexivity.
Qed.

(** [ActiveChanged(false)] when the day has none: one is created. *)
Lemma ledger_resume_create (t : datetime) (w : world) :
  rev (todays_entries t (hamster w)) = [] ->
  let act := {| id := None;
                category := default_category;
                activity := default_activity;
                range := {| start := t; end_ := None |} |} in
  let w' := dispatch (t, ActiveChanged false) w in
  hamster w' = {| entries := entries (hamster w)
                               ++ [(next_id (hamster w), act)];
                  next_id := (next_id (hamster w) + 1)%Z |} /\
  issued w w' [Call_GetTodaysFactsJSON; Call_AddFactJSON act].
Proof.
  intros Hl; cbv zeta.
  assert (Hg : GetTodaysFactsJSON t (hamster w) = (inr [], hamster w)).
  { simpl. unfold get_todays_facts.
    rewrite <- (rev_involutive (todays_entries t (hamster w))), Hl.
    reflexivity. }
  rewrite (dispatch_active_false_create _ _ Hg); simpl.
  split; reflexivity.
Qed.

Lemma latest_some (t : datetime) (l : Ledger.t) (E : Fact) :
  latest t l = Some E ->
  exists i f rest,
    rev (todays_entries t l) = (i, f) :: rest /\ E = stored (i, f).
Proof.
  unfold latest.
  destruct (rev (todays_entries t l)) as [| [i f] rest]; [discriminate |].
  intros [= <-]; eauto.
Qed.

Lemma latest_none (t : datetime) (l : Ledger.t) :
  latest t l = None -> rev (todays_entries t l) = [].
Proof.
  unfold latest.
  destruct (rev (todays_entries t l)) as [| e rest];
    [reflexivity | discriminate].
Qed.

(** What [resume_activity] does to the ledger. *)
Lemma ledger_resume (t : datetime) (w : world) :
  let w' := dispatch (t, ActiveChanged false) w in
  (forall E, latest t (hamster w) = Some E ->
     latest t (hamster w') = Some (set_range_end E None) /\
     length (entries (hamster w')) = length (entries (hamster w)) /\
     issued w w' [Call_GetTodaysFactsJSON;
                  Call_UpdateFactJSON (id E) (set_range_end E None)]) /\
  (latest t (hamster w) = None ->
     let act := {| id := None;
                   category := default_category;
                   activity := default_activity;
                   range := {| start := t; end_ := None |} |} in
     entries (hamster w')
       = entries (hamster w) ++ [(next_id (hamster w), act)] /\
     latest t (hamster w') = Some (stored (next_id (hamster w), act)) /\
     issued w w' [Call_GetTodaysFactsJSON; Call_AddFactJSON act]).
Proof.
  cbv zeta; split.
  - intros E HE.
    destruct (latest_some _ _ HE) as (i & f & rest & Hl & ->).
    destruct (ledger_resume_reopen _ _ Hl) as [Hh Hi].
    cbv zeta in Hh, Hi. rewrite Hh; simpl. split; [| split].
    + unfold latest, todays_entries; simpl.
      destruct (@todays_amend_const t i f
                  (set_range_end (stored (i, f)) None) _ rest Hl eq_refl)
        as [rest' ->].
      reflexivity.
    + apply amend_length.
    + exact Hi.
  - intros HN. apply latest_none in HN.
    destruct (ledger_resume_create _ _ HN) as [Hh Hi].
    cbv zeta in Hh, Hi. rewrite Hh; simpl. split; [reflexivity |]. split.
    + unfold latest, todays_entries in *; simpl.
      rewrite filter_app, rev_app_distr. unfold is_today at 1; simpl.
      rewrite Z.eqb_refl; reflexivity.
    + exact Hi.
Qed.

(** What [stop_activity] does to the ledger when the latest entry of the
    day is open. *)
Lemma ledger_stop (t : datetime) (w : world) (E : Fact) :
  latest t (hamster w) = Some E ->
  end_ (range E) = None ->
  let ts := if negb (screen_locked (self w))
               && Q_truthy (timeout_minutes (self w))
            then t - timedelta (timeout_minutes (self w)) else t in
  let w' := dispatch (t, ActiveChanged true) w in
  latest t (hamster w') = Some (set_range_end E (Some ts)) /\
  length (entries (hamster w')) = length (entries (hamster w)).
Proof.
  intros HE Hopen; cbv zeta.
  destruct (latest_some _ _ HE) as (i & f & rest & Hl & ->).
  rewrite dispatch_active_true; simpl.
  unfold stop_tracking. rewrite Hl. simpl in Hopen; rewrite Hopen; simpl.
  split; [| apply amend_length].
  unfold latest, todays_entries; simpl.
  match goal with
  | |- context [amend i (fun g => set_range_end g ?e) _] =>
      destruct (@todays_amend_end t i f e _ rest Hl) as [rest' ->]
  end.
  reflexivity.
Qed.

End LedgerFacts.

Lemma latest_same_day (t t' : datetime) (l : Ledger.t) :
  Ledger.day t = Ledger.day t' -> latest t l = latest t' l.
Proof.
  intros E. unfold latest. rewrite (@todays_same_day t t' l E); reflexivity.
Qed.

Lemma set_range_end_twice (f : Fact) (a b : option datetime) :
  set_range_end (set_range_end f a) b = set_range_end f b.
Proof. reflexivity. Qed.

Lemma set_range_end_same (f : Fact) :
  set_range_end f (end_ (range f)) = f.
Proof. destruct f as [i c a [s e]]; reflexivity. Qed.

(** After [ActiveChanged(false)] the day has an open latest entry. *)
Lemma ledger_resume_latest (t : datetime) (w : @World plain_dbus Ledger.t) :
  exists E,
    latest t (hamster (dispatch (t, ActiveChanged false) w)) = Some E /\
    end_ (range E) = None.
Proof.
  destruct (ledger_resume t w) as [Hsome Hnone]; cbv zeta in *.
  destruct (latest t (hamster w)) as [E0 |] eqn:HE.
  - destruct (Hsome E0 eq_refl) as (Hl & _). eauto.
  - destruct (Hnone eq_refl) as (_ & Hl & _). eauto.
Qed.

(** C2: [ActiveChanged(false)] runs [resume_activity].  When the service
    reports facts for the day, the last of them is sent back under its own
    id with its end cleared and nothing is added; when it reports none, a
    fact that starts now, with the default category and activity, is added.
    On the ledger this reopens the latest entry of the day, or creates one,
    and a sequence of unlock, lock request, lock and unlock within one day
    ends with the entry of the first unlock open again, without a new one. *)
Theorem upsert_open_entry :
  (forall (D : DBus) (L : Type) (H : Hamster L) (t : datetime)
          (w : @World D L),
     let w' := dispatch (t, ActiveChanged false) w in
     (forall fs j l1,
        GetTodaysFactsJSON t (hamster w) = (inr (fs ++ [j]), l1) ->
        issued w w'
          [Call_GetTodaysFactsJSON;
           Call_UpdateFactJSON
             (id (from_dbus_fact_json j))
             (to_dbus_fact_json
                (set_range_end (from_dbus_fact_json j) None))]) /\
     (forall l1,
        GetTodaysFactsJSON t (hamster w) = (inr [], l1) ->
        issued w w'
          [Call_GetTodaysFactsJSON;
           Call_AddFactJSON
             (to_dbus_fact_json
                {| id := None;
                   category := default_category;
                   activity := default_activity;
                   range := {| start := t; end_ := None |} |})])) /\
  (forall (t : datetime) (w : @World plain_dbus Ledger.t),
     let w' := dispatch (t, ActiveChanged false) w in
     (forall E, latest t (hamster w) = Some E ->
        latest t (hamster w') = Some (set_range_end E None) /\
        length (Ledger.entries (hamster w'))
          = length (Ledger.entries (hamster w))) /\
     (latest t (hamster w) = None ->
        Ledger.entries (hamster w')
          = Ledger.entries (hamster w)
              ++ [(Ledger.next_id (hamster w),
                   {| id := None;
                      category := default_category;
                      activity := default_activity;
                      range := {| start := t; end_ := None |} |})])) /\
  (forall (t1 t2 t3 t4 : datetime) (w : @World plain_dbus Ledger.t),
     Ledger.day t3 = Ledger.day t1 ->
     Ledger.day t4 = Ledger.day t1 ->
     let w1 := dispatch (t1, ActiveChanged false) w in
     let w3 := run [(t2, LockRequested); (t3, ActiveChanged true)] w1 in
     let w4 := dispatch (t4, ActiveChanged false) w3 in
     exists E,
       latest t1 (hamster w1) = Some E /\
       end_ (range E) = None /\
       latest t3 (hamster w3) = Some (set_range_end E (Some t3)) /\
       latest t4 (hamster w4) = Some E /\
       issued w3 w4 [Call_GetTodaysFactsJSON; Call_UpdateFactJSON (id E) E] /\
       length (Ledger.entries (hamster w4))
         = length (Ledger.entries (hamster w1))).
Proof.
  split; [| split].
  - intros D L H t w; cbv zeta; split.
    + intros fs j l1 Hg. unfold issued.
      rewrite (dispatch_active_false_reopen _ _ _ _ Hg); reflexivity.
    + intros l1 Hg. unfold issued.
      rewrite (dispatch_active_false_create _ _ Hg); reflexivity.
  - intros t w; cbv zeta.
    destruct (ledger_resume t w) as [Hsome Hnone]; cbv zeta in *. split.
    + intros E HE. destruct (Hsome E HE) as (A & B & _); auto.
    + intros HN. destruct (Hnone HN) as (A & _); exact A.
  - intros t1 t2 t3 t4 w D3 D4; cbv zeta.
    destruct (ledger_resume_latest t1 w) as (E & HE & Hopen).
    set (w1 := dispatch (t1, ActiveChanged false) w) in *.
    change (run [(t2, LockRequested); (t3, ActiveChanged true)] w1)
      with (dispatch (t3, ActiveChanged true)
              (dispatch (t2, LockRequested) w1)).
    set (w2 := dispatch (t2, LockRequested) w1).
    assert (H2 : latest t3 (hamster w2) = Some E).
    { rewrite (@latest_same_day t3 t1 _ D3). exact HE. }
    destruct (ledger_stop t3 w2 H2 Hopen) as [H3 L3]; cbv zeta in H3, L3.
    change (screen_locked (self w2)) with true in H3; simpl in H3.
    set (w3 := dispatch (t3, ActiveChanged true) w2) in *.
    assert (H3' : latest t4 (hamster w3)
                  = Some (set_range_end E (Some t3))).
    { rewrite (@latest_same_day t4 t3) by congruence. exact H3. }
    destruct (ledger_resume t4 w3) as [Hsome _]; cbv zeta in Hsome.
    destruct (Hsome _ H3') as (H4 & L4 & I4).
    rewrite set_range_end_twice in H4, I4.
    rewrite <- Hopen, set_range_end_same in H4, I4.
    exists E. repeat split; try assumption.
    rewrite L4, L3. reflexivity.
Qed.

(** ** The claims at work *)

(** The day of the spec's scenario: started while the screen saver is on,
    unlock at 09:00, screen saver at 09:30 after ten idle minutes, then a
    lock request and another activation at 10:00. *)
Example working_day :
  calls (run [(540, ActiveChanged false); (570, ActiveChanged true);
              (599, LockRequested); (600, ActiveChanged true)]
           (startup true (Some 600%Z) empty_ledger 480))
  = [Call_GetTodaysFactsJSON;
     Call_AddFactJSON
       {| id := None; category := "Work"; activity := "Work";
          range := {| start := 540; end_ := None |} |};
     Call_StopTracking (570 - timedelta 10);
     Call_StopTracking 600].
Proof. reflexivity. Qed.

Lemma stop_activity_timestamp_witness :
  issued lock_pending (dispatch (570, ActiveChanged true) lock_pending)
    [Call_StopTracking 570] /\
  issued morning (dispatch (570, ActiveChanged true) morning)
    [Call_StopTracking (570 - timedelta 10)].
Proof.
  split.
  - apply (proj1 (stop_activity_timestamp 570 lock_pending)).
    left; reflexivity.
  - apply (proj2 (stop_activity_timestamp 570 morning)); reflexivity.
Defined.

Lemma upsert_open_entry_witness :
  issued away (dispatch (580, ActiveChanged false) away)
    [Call_GetTodaysFactsJSON;
     Call_UpdateFactJSON (Some 1%Z)
       {| id := Some 1%Z; category := "Work"; activity := "Work";
          range := {| start := 540; end_ := None |} |}] /\
  issued morning (dispatch (540, ActiveChanged false) morning)
    [Call_GetTodaysFactsJSON;
     Call_AddFactJSON
       {| id := None; category := "Work"; activity := "Work";
          range := {| start := 540; end_ := None |} |}] /\
  length (Ledger.entries (hamster (dispatch (580, ActiveChanged false) away)))
    = 1%nat /\
  Ledger.entries (hamster (dispatch (540, ActiveChanged false) morning))
    = [(1%Z, {| id := None; category := "Work"; activity := "Work";
                range := {| start := 540; end_ := None |} |})] /\
  exists E,
    latest 540 (hamster (dispatch (540, ActiveChanged false) morning))
      = Some E /\
    end_ (range E) = None /\
    latest 570
      (hamster (run [(569, LockRequested); (570, ActiveChanged true)]
                  (dispatch (540, ActiveChanged false) morning)))
      = Some (set_range_end E (Some 570)) /\
    latest 580
      (hamster
         (dispatch (580, ActiveChanged false)
            (run [(569, LockRequested); (570, ActiveChanged true)]
               (dispatch (540, ActiveChanged false) morning))))
      = Some E /\
    issued
      (run [(569, LockRequested); (570, ActiveChanged true)]
         (dispatch (540, ActiveChanged false) morning))
      (dispatch (580, ActiveChanged false)
         (run [(569, LockRequested); (570, ActiveChanged true)]
            (dispatch (540, ActiveChanged false) morning)))
      [Call_GetTodaysFactsJSON; Call_UpdateFactJSON (id E) E] /\
    length
      (Ledger.entries
         (hamster
            (dispatch (580, ActiveChanged false)
               (run [(569, LockRequested); (570, ActiveChanged true)]
                  (dispatch (540, ActiveChanged false) morning)))))
    = length
        (Ledger.entries
           (hamster (dispatch (540, ActiveChanged false) morning))).
Proof.
  destruct upsert_open_entry as (Hcall & Heffect & Hround).
  split; [| split; [| split; [| split]]].
  - apply (proj1 (Hcall plain_dbus Ledger.t ledger_service 580 away)
             [] (set_range_end
                   {| id := Some 1%Z; category := "Work"; activity := "Work";
                      range := {| start := 540; end_ := None |} |}
                   (Some 560))
             (hamster away)).
    reflexivity.
  - apply (proj2 (Hcall plain_dbus Ledger.t ledger_service 540 morning)
             (hamster morning)).
    reflexivity.
  - apply (proj1 (Heffect 580 away)
             (set_range_end
                {| id := Some 1%Z; category := "Work"; activity := "Work";
                   range := {| start := 540; end_ := None |} |}
                (Some 560))).
    reflexivity.
  - apply (proj2 (Heffect 540 morning)). reflexivity.
  - apply (Hround 540 569 570 580 morning); reflexivity.
Defined.

Lemma reasserted_events_witness :
  (issued (run [(540, ActiveChanged false)] morning)
     (dispatch (541, ActiveChanged false)
        (run [(540, ActiveChanged false)] morning))
     [Call_GetTodaysFactsJSON;
      Call_UpdateFactJSON (Some 1%Z)
        {| id := Some 1%Z; category := "Work"; activity := "Work";
           range := {| start := 540; end_ := None |} |}] /\
   screensaver_active
     (self (run [(540, ActiveChanged false); (541, ActiveChanged false)]
              morning)) = false /\
   screen_locked
     (self (run [(540, ActiveChanged false); (541, ActiveChanged false)]
              morning)) = false /\
   self (run [(540, ActiveChanged false); (541, ActiveChanged false)] morning)
     = self morning) /\
  self (dispatch (600, ActiveChanged true) away) = self away /\
  issued away (dispatch (600, ActiveChanged true) away)
    [Call_StopTracking (600 - timedelta 10)].
Proof.
  split.
  - destruct (proj1 (reasserted_events [540; 541] 0 morning) eq_refl)
      as (Hcs & Ha & Hl & Hs).
    split; [exact (Hcs [540] 541 [] eq_refl) |]. split; [exact Ha |].
    split; [apply Hl; discriminate | apply Hs; reflexivity].
  - apply (proj2 (reasserted_events [] 600 away)). reflexivity.
Defined.

Lemma locked_cleared_on_resume_witness :
  screen_locked (self (dispatch (540, ActiveChanged false) lock_pending))
    = false /\
  snd (540, ActiveChanged false) = ActiveChanged false /\
  (snd (580, ActiveChanged false) = ActiveChanged false /\
   screen_locked (self (dispatch (580, ActiveChanged false) away)) = false).
Proof.
  split; [| split].
  - apply (proj1 (locked_cleared_on_resume [(539, LockRequested)]
                    (540, ActiveChanged false) morning)).
    reflexivity.
  - apply (proj1 (proj2 (locked_cleared_on_resume [(539, LockRequested)]
                           (540, ActiveChanged false) morning)));
      reflexivity.
  - apply (proj2 (proj2 (locked_cleared_on_resume
                           [(540, ActiveChanged false);
                            (570, ActiveChanged true)]
                           (580, ActiveChanged false) morning)));
      reflexivity.
Defined.

Lemma failure_keeps_transition_witness :
  self (dispatch (570, ActiveChanged true) morning_down)
    = self (dispatch (570, ActiveChanged true) morning) /\
  (fst (handle (ActiveChanged true) (at_time 570 morning_down))
     = Raised "unavailable"%string /\
   log (dispatch (570, ActiveChanged true) morning_down)
     = (log morning_down ++ [(DEBUG, active_changed_called true)])
         ++ [(INFO, stop_current_activity)]) /\
  (fst (handle (ActiveChanged false) (at_time 540 morning_down))
     = Raised "unavailable"%string /\
   log (dispatch (540, ActiveChanged false) morning_down)
     = (log morning_down ++ [(DEBUG, active_changed_called false)])
         ++ [(INFO, resume_or_start_new_activity)]) /\
  (fst (handle (ActiveChanged false) (at_time 580 evening_read_only))
     = Raised "rejected"%string /\
   log (dispatch (580, ActiveChanged false) evening_read_only)
     = ((log evening_read_only ++ [(DEBUG, active_changed_called false)])
          ++ [(INFO, resume_or_start_new_activity)])
         ++ [(DEBUG, Update_fact (set_range_end work_fact None))]) /\
  (fst (handle (ActiveChanged false) (at_time 540 morning_read_only))
     = Raised "rejected"%string /\
   log (dispatch (540, ActiveChanged false) morning_read_only)
     = (log morning_read_only ++ [(DEBUG, active_changed_called false)])
         ++ [(INFO, resume_or_start_new_activity)]).
Proof.
  split; [| split; [| split; [| split]]].
  - apply (proj1 (failure_keeps_transition unreachable_service ledger_service
                    570 morning_down morning)).
    reflexivity.
  - apply (proj1 (proj2 (failure_keeps_transition
                           unreachable_service ledger_service
                           570 morning_down morning))
             "unavailable"%string down); reflexivity.
  - apply (proj1 (proj2 (proj2 (failure_keeps_transition
                                  unreachable_service ledger_service
                                  540 morning_down morning)))
             "unavailable"%string down); reflexivity.
  - apply (proj1 (proj2 (proj2 (proj2 (failure_keeps_transition
                                         read_only_service ledger_service
                                         580 evening_read_only morning))))
             [] work_fact (read_only [work_fact]) "rejected"%string
             (read_only [work_fact])); reflexivity.
  - apply (proj2 (proj2 (proj2 (proj2 (failure_keeps_transition
                                         read_only_service ledger_service
                                         540 morning_read_only morning))))
             (read_only []) "rejected"%string (read_only []));
      reflexivity.
Defined.

Lemma startup_unlocked_witness :
  issued
    (run [(490, BusMessage get_active_call)]
       (startup true (Some 600%Z) empty_ledger 480))
    (dispatch (570, ActiveChanged true)
       (run [(490, BusMessage get_active_call)]
          (startup true (Some 600%Z) empty_ledger 480)))
    [Call_StopTracking (570 - timedelta 10)].
Proof.
  refine (proj2 (proj2 (startup_unlocked true (Some 600%Z) 600 empty_ledger
                          480 570 [(490, BusMessage get_active_call)])) _ _).
  - reflexivity.
  - constructor; [discriminate | constructor].
Defined.


(** ** Where the code parts from the spec *)

(** C4, as stated, fails: a lock request seen while the session is in use
    leaves the activation flag false and sets the locked flag; the
    re-asserted [ActiveChanged(false)] that follows clears the locked flag. *)
Lemma reassert_changes_locked :
  screensaver_active (self lock_pending) = false /\
  screen_locked (self (dispatch (540, ActiveChanged false) lock_pending))
    <> screen_locked (self lock_pending).
Proof. split; [reflexivity | discriminate]. Qed.

(** C5, as stated, fails: the flag is cleared by an [ActiveChanged(false)]
    that finds the activation flag false already, a point that is no
    transition from true to false. *)
Lemma reset_without_transition :
  screen_locked (self (run [(500, LockRequested)] morning)) = true /\
  screensaver_active (self (run [(500, LockRequested)] morning)) = false /\
  screen_locked
    (self (dispatch (501, ActiveChanged false)
             (run [(500, LockRequested)] morning))) = false.
Proof. repeat split. Qed.


(** C7, as stated, fails: with the service down the handler does not log
    the failure and return, it ends with the exception; the logger has the
    two lines written before the call and nothing else. *)
Lemma failure_is_raised :
  fst (handle (ActiveChanged true) (at_time 570 morning_down))
    = Raised "unavailable"%string /\
  log (dispatch (570, ActiveChanged true) morning_down)
    = [(DEBUG, ScreenSaver_active false);
       (DEBUG, active_changed_called true);
       (INFO, stop_current_activity)].
Proof. split; reflexivity. Qed.

(** * Beyond the single event *)

Section Runs.

Context `{D : DBus} {L : Type} `{H : !Hamster L}.

Local Abbreviation world := (@World D L).

Lemma run_cons (te : datetime * Event) (events : list (datetime * Event))
    (w : world) :
  run (te :: events) w = run events (dispatch te w).
Proof. reflexivity. Qed.

Lemma run_snoc (events : list (datetime * Event)) (te : datetime * Event)
    (rest : list (datetime * Event)) (w : world) :
  run (events ++ te :: rest) w = run rest (dispatch te (run events w)).
Proof. unfold run; rewrite fold_left_app; reflexivity. Qed.

(** X1: [on_locked] lets every message pass that is not the lock call: the
    object, the ledger, the logger and the bus see nothing of it. *)
Theorem other_messages_ignored (msgs : list (datetime * Message))
    (w : world) :
  Forall (fun tm => BusMessage (snd tm) <> LockRequested) msgs ->
  let w' := run (map (fun tm => (fst tm, BusMessage (snd tm))) msgs) w in
  self w' = self w /\ hamster w' = hamster w /\
  log w' = log w /\ calls w' = calls w.
Proof.
  intros Hm; revert w; cbv zeta.
  induction Hm as [| [t msg] msgs Hn _ IH]; intros w.
  - simpl; auto.
  - simpl map. rewrite run_cons.
    destruct (IH (dispatch (t, BusMessage msg) w)) as (A & B & C & E).
    rewrite A, B, C, E. simpl in Hn.
    rewrite (dispatch_other_message _ _ Hn); simpl; auto.
Qed.

(** X2: the idle delay is read in the constructor and nowhere else: no event
    changes the timeout the object holds. *)
Theorem timeout_read_once (GetActive : bool) (idle_delay : option Z)
    (l : L) (t0 : datetime) (events : list (datetime * Event)) :
  timeout_minutes (self (run events (startup GetActive idle_delay l t0)))
  = timeout_minutes (init GetActive idle_delay).
Proof. rewrite run_timeout; reflexivity. Qed.

Lemma run_quiet_active (events : list (datetime * Event)) (w : world) :
  Forall (fun te => forall a, snd te <> ActiveChanged a) events ->
  screensaver_active (self (run events w)) = screensaver_active (self w).
Proof.
  intros Hq; revert w.
  induction Hq as [| [t e] events Hn _ IH]; intros w.
  - reflexivity.
  - rewrite run_cons, IH. destruct e as [msg | a].
    + apply dispatch_message.
    + elim (Hn a); reflexivity.
Qed.

(** X4: the activation flag is the value of the last signal received, whatever
    the ledger answered; without a signal it keeps its value. *)
Theorem active_mirrors_last_signal (pre post : list (datetime * Event))
    (t : datetime) (b : bool) (w : world) :
  Forall (fun te => forall a, snd te <> ActiveChanged a) post ->
  screensaver_active (self (run (pre ++ (t, ActiveChanged b) :: post) w)) = b
  /\ screensaver_active (self (run post w)) = screensaver_active (self w).
Proof.
  intros Hq. split; [| apply run_quiet_active, Hq].
  rewrite run_snoc, (run_quiet_active _ Hq).
  destruct b.
  - rewrite dispatch_active_true; reflexivity.
  - rewrite dispatch_active_false_self; reflexivity.
Qed.

Lemma run_stays_locked (events : list (datetime * Event)) (w : world) :
  Forall (fun te => snd te <> ActiveChanged false) events ->
  screen_locked (self w) = true ->
  screen_locked (self (run events w)) = true.
Proof.
  intros Hq; revert w.
  induction Hq as [| [t e] events Hn _ IH]; intros w Hw.
  - exact Hw.
  - rewrite run_cons. apply IH. destruct e as [msg | [|]].
    + destruct (dispatch_message t msg w) as (_ & _ & _ & _ & _ & [E | E]);
        congruence.
    + rewrite dispatch_active_true; exact Hw.
    + elim Hn; reflexivity.
Qed.

(** X5: the locked flag is set exactly while a lock request has been seen
    since the last [ActiveChanged(false)]: it is set after a lock request
    as long as no [ActiveChanged(false)] follows, and clear after an
    [ActiveChanged(false)] as long as no lock request follows. *)
Theorem locked_since_last_unlock (pre post : list (datetime * Event))
    (t : datetime) (w : world) :
  (Forall (fun te => snd te <> ActiveChanged false) post ->
   screen_locked (self (run (pre ++ (t, LockRequested) :: post) w)) = true)
  /\
  (Forall (fun te => snd te <> LockRequested) post ->
   screen_locked
     (self (run (pre ++ (t, ActiveChanged false) :: post) w)) = false).
Proof.
  split; intros Hq; rewrite run_snoc.
  - apply (run_stays_locked _ Hq). rewrite dispatch_lock; reflexivity.
  - apply (run_no_lock_unlocked _ Hq).
    rewrite dispatch_active_false_self; reflexivity.
Qed.

(** X6: over a whole run the calls made are, event by event and in the
    order of arrival, the calls of the command each event stands for in
    the world it finds: none for a bus message, the one [StopTracking] for
    an [ActiveChanged(true)], the fetch and the one change for an
    [ActiveChanged(false)]; nothing else is sent. *)
Theorem commands_follow_signals (events : list (datetime * Event))
    (w : world) :
  issued w (run events w) (run_calls events w).
Proof.
  revert w; induction events as [| [t e] events IH]; intros w.
  - unfold issued; simpl. rewrite app_nil_r; reflexivity.
  - rewrite run_cons. simpl run_calls.
    unfold issued in *. rewrite IH, (dispatch_calls t e w), app_assoc.
    reflexivity.
Qed.

End Runs.

(** One event, two worlds: the object ends up the same whenever it started
    the same, whatever the clocks and the services. *)
Lemma dispatch_self_only (D : DBus) (L1 L2 : Type)
    (H1 : Hamster L1) (H2 : Hamster L2) (t1 t2 : datetime) (e : Event)
    (w1 : @World D L1) (w2 : @World D L2) :
  self w1 = self w2 ->
  self (dispatch (t1, e) w1) = self (dispatch (t2, e) w2).
Proof.
  intros Hs. destruct e as [msg | [|]].
  - unfold dispatch, handle, on_locked; simpl.
    destruct (is_str (get_interface msg) "org.gnome.ScreenSaver"
              && is_str (get_member msg) "Lock"); simpl;
      rewrite Hs; reflexivity.
  - rewrite !dispatch_active_true; simpl. rewrite Hs; reflexivity.
  - rewrite !dispatch_active_false_self, Hs; reflexivity.
Qed.

(** X3: the object's fields after a run are a function of the fields before it
    and of the events alone: neither the times at which they arrive nor
    what the ledger answers, failures included, has a say. *)
Theorem state_follows_events (D : DBus) (L1 L2 : Type)
    (H1 : Hamster L1) (H2 : Hamster L2)
    (ev1 ev2 : list (datetime * Event))
    (w1 : @World D L1) (w2 : @World D L2) :
  self w1 = self w2 ->
  map snd ev1 = map snd ev2 ->
  self (run ev1 w1) = self (run ev2 w2).
Proof.
  revert ev2 w1 w2.
  induction ev1 as [| [t1 e1] ev1 IH]; intros [| [t2 e2] ev2] w1 w2 Hs Hm;
    try discriminate.
  - exact Hs.
  - simpl in Hm. injection Hm as -> Hm.
    rewrite !run_cons. apply IH; [| exact Hm].
    apply dispatch_self_only, Hs.
Qed.

Section Closing.

Context `{D : DBus} {L : Type} `{H : !Hamster L}.

Local Abbreviation world := (@World D L).

Lemma run_messages_frame (msgs : list (datetime * Message)) (w : world) :
  let w' := run (map (fun tm => (fst tm, BusMessage (snd tm))) msgs) w in
  hamster w' = hamster w /\ calls w' = calls w /\
  timeout_minutes (self w') = timeout_minutes (self w).
Proof.
  revert w; cbv zeta; induction msgs as [| [t msg] msgs IH]; intros w.
  - simpl; auto.
  - simpl map. rewrite run_cons.
    destruct (IH (dispatch (t, BusMessage msg) w)) as (A & B & C).
    rewrite A, B, C.
    destruct (dispatch_message t msg w) as (E1 & E2 & _ & _ & E3 & _).
    auto.
Qed.

(** What [ActiveChanged(false)] leaves behind depends on the world it
    finds only through the ledger, the timeout and the calls made. *)
Lemma dispatch_active_false_frame (t : datetime) (w1 w2 : world) :
  hamster w1 = hamster w2 ->
  calls w1 = calls w2 ->
  timeout_minutes (self w1) = timeout_minutes (self w2) ->
  let w1' := dispatch (t, ActiveChanged false) w1 in
  let w2' := dispatch (t, ActiveChanged false) w2 in
  self w1' = self w2' /\ hamster w1' = hamster w2' /\ calls w1' = calls w2'.
Proof.
  intros Hh Hc Ht; cbv zeta.
  destruct (todays_facts_cases t (hamster w2))
    as [(e & l1 & Hg) | [(l1 & Hg) | (fs & j & l1 & Hg)]];
    pose proof Hg as Hg1; rewrite <- Hh in Hg1.
  - rewrite (dispatch_active_false_unanswered _ _ Hg),
            (dispatch_active_false_unanswered _ _ Hg1); simpl.
    rewrite Hc, Ht; auto.
  - rewrite (dispatch_active_false_create _ _ Hg),
            (dispatch_active_false_create _ _ Hg1); simpl.
    rewrite Hc, Ht; auto.
  - rewrite (dispatch_active_false_reopen _ _ _ _ Hg),
            (dispatch_active_false_reopen _ _ _ _ Hg1); simpl.
    rewrite Hc, Ht; auto.
Qed.

(** X7: lock requests, and bus messages of any kind, that are followed by an
    [ActiveChanged(false)] with no activation in between leave no trace
    but their log lines: the object, the ledger and the calls made end up
    as if the messages had never arrived. *)
Theorem unlock_absorbs_messages (msgs : list (datetime * Message))
    (t : datetime) (w : world) :
  let w1 := dispatch (t, ActiveChanged false)
              (run (map (fun tm => (fst tm, BusMessage (snd tm))) msgs) w) in
  let w2 := dispatch (t, ActiveChanged false) w in
  self w1 = self w2 /\ hamster w1 = hamster w2 /\ calls w1 = calls w2.
Proof.
  cbv zeta.
  destruct (run_messages_frame msgs w) as (A & B & C).
  apply dispatch_active_false_frame; assumption.
Qed.

(** X8: with a timeout that is not negative the time passed to [StopTracking]
    is never after the time of the signal, and it is that time itself when
    the screen was locked by hand. *)
Theorem close_time_not_after_now (t : datetime) (w : world) :
  0 <= timeout_minutes (self w) ->
  exists ts,
    issued w (dispatch (t, ActiveChanged true) w)
      [Call_StopTracking (to_dbus_date ts)] /\
    ts <= t /\
    t - timeout_minutes (self w) <= ts /\
    (screen_locked (self w) = true -> ts = t).
Proof.
  intros Hpos. unfold issued. rewrite dispatch_active_true; simpl.
  eexists; split; [reflexivity |].
  destruct (screen_locked (self w)); simpl.
  - repeat split; try lra.
  - destruct (Q_truthy (timeout_minutes (self w))) eqn:E;
      unfold timedelta; repeat split; try lra; try discriminate.
Qed.


(** X10: nothing the tracker sends can close or rewrite an entry, except
    [StopTracking]: at every point of a run, an update sends the last fact
    the service reports at that moment back under its own id with only its
    end cleared, and an insertion is made only when the service reports no
    fact for the day, of a fact with the default category and activity, no
    end, and the time of the event as its start. *)
Theorem writes_leave_open (pre : list (datetime * Event)) (t : datetime)
    (e : Event) (w : world) :
  let w1 := run pre w in
  exists cs,
    issued w1 (dispatch (t, e) w1) cs /\
    Forall (leaves_open t (hamster w1)) cs.
Proof.
  cbv zeta. generalize (run pre w); intros w1.
  unfold issued. destruct e as [msg | [|]].
  - exists [].
    destruct (dispatch_message t msg w1) as (_ & Hc & _).
    cbv zeta in Hc; rewrite Hc, app_nil_r; auto.
  - eexists. rewrite dispatch_active_true; simpl.
    split; [reflexivity |]. repeat constructor.
  - destruct (todays_facts_cases t (hamster w1))
      as [(x & l1 & Hg) | [(l1 & Hg) | (fs & j & l1 & Hg)]].
    + rewrite (dispatch_active_false_unanswered _ _ Hg); simpl.
      eexists; split; [reflexivity |]. repeat constructor.
    + rewrite (dispatch_active_false_create _ _ Hg); simpl.
      eexists; split; [reflexivity |]. repeat constructor.
      simpl. eauto.
    + rewrite (dispatch_active_false_reopen _ _ _ _ Hg); simpl.
      eexists; split; [reflexivity |]. repeat constructor.
      simpl. exists fs, j, l1; auto.
Qed.

End Closing.

(** ** Whole days on the ledger *)

Section Days.

Import Ledger.

Local Abbreviation world := (@World plain_dbus Ledger.t).

(** [ActiveChanged(true)] on the ledger: no entry comes or goes, and the
    latest entry of the day, if there is one, has an end afterwards. *)
Lemma stop_on_ledger (t : datetime) (w : world) :
  let w' := dispatch (t, ActiveChanged true) w in
  length (entries (hamster w')) = length (entries (hamster w)) /\
  (latest t (hamster w) = None -> hamster w' = hamster w) /\
  (forall E, latest t (hamster w) = Some E ->
     exists E', latest t (hamster w') = Some E' /\
                end_ (range E') <> None).
Proof.
  cbv zeta. rewrite dispatch_active_true; simpl.
  unfold stop_tracking, latest.
  destruct (rev (todays_entries t (hamster w))) as [| [i f] rest] eqn:Hl.
  - simpl. rewrite Hl. repeat split; intros; discriminate.
  - destruct (end_ (range f)) as [e |] eqn:He; simpl.
    + rewrite Hl. repeat split; try discriminate.
      intros E [= <-]. eexists; split; [reflexivity |].
      simpl; rewrite He; discriminate.
    + split; [apply amend_length |]. split; [discriminate |].
      intros E _. unfold todays_entries; simpl.
      match goal with
      | |- context [amend i (fun g => set_range_end g ?e) _] =>
          destruct (@todays_amend_end t i f e _ rest Hl) as [rest' ->]
      end.
      eexists; split; [reflexivity | discriminate].
Qed.

(** X11: while the screen is in use the latest entry of the day is open, and
    while the screen saver is on it is closed: right after an
    [ActiveChanged(false)], and after any bus messages that follow it, the
    day has a latest entry and it has no end; after an
    [ActiveChanged(true)] the latest entry, if the day has one, has an
    end. *)
Theorem latest_entry_tracks_activation (t : datetime)
    (msgs : list (datetime * Message)) (w : world) :
  let quiet := map (fun tm => (fst tm, BusMessage (snd tm))) msgs in
  (exists E,
     latest t (hamster (run quiet (dispatch (t, ActiveChanged false) w)))
       = Some E /\
     end_ (range E) = None) /\
  (forall E,
     latest t (hamster (run quiet (dispatch (t, ActiveChanged true) w)))
       = Some E ->
     end_ (range E) <> None).
Proof.
  cbv zeta; split.
  - destruct (run_messages_frame msgs (dispatch (t, ActiveChanged false) w))
      as (-> & _).
    apply ledger_resume_latest.
  - destruct (run_messages_frame msgs (dispatch (t, ActiveChanged true) w))
      as (-> & _).
    intros E HE.
    destruct (stop_on_ledger t w) as (_ & Hnone & Hsome); cbv zeta in *.
    destruct (latest t (hamster w)) as [E0 |] eqn:H0.
    + destruct (Hsome E0 eq_refl) as (E' & HE' & Hend). congruence.
    + rewrite (Hnone eq_refl), H0 in HE. discriminate.
Qed.

(** One event of the day: a day that has an entry keeps its entries, a day
    without one stays as it is or gets its first. *)
Lemma step_same_day (day0 : datetime) (te : datetime * Event) (w : world) :
  day (fst te) = day day0 ->
  let w' := dispatch te w in
  (latest day0 (hamster w) <> None ->
     latest day0 (hamster w') <> None /\
     length (entries (hamster w')) = length (entries (hamster w))) /\
  (latest day0 (hamster w) = None ->
     hamster w' = hamster w \/
     (latest day0 (hamster w') <> None /\
      length (entries (hamster w')) = S (length (entries (hamster w))))).
Proof.
  destruct te as [t e]; simpl; intros Hd.
  rewrite <- !(@latest_same_day t day0 _ Hd).
  destruct e as [msg | [|]].
  - destruct (dispatch_message t msg w) as (-> & _). auto.
  - destruct (stop_on_ledger t w) as (Hlen & Hnone & Hsome); cbv zeta in *.
    split.
    + intros Hl. destruct (latest t (hamster w)) as [E |] eqn:HE;
        [| congruence].
      destruct (Hsome E eq_refl) as (E' & -> & _).
      split; [discriminate | exact Hlen].
    + intros Hl; left; apply Hnone, Hl.
  - destruct (ledger_resume t w) as (Hsome & Hnone); cbv zeta in *.
    split.
    + intros Hl. destruct (latest t (hamster w)) as [E |] eqn:HE;
        [| congruence].
      destruct (Hsome E eq_refl) as (-> & Hlen & _).
      split; [discriminate | exact Hlen].
    + intros Hl; right.
      destruct (Hnone Hl) as (-> & -> & _).
      split; [discriminate |]. rewrite length_app; simpl; lia.
Qed.

(** X12: A day gets one fact: however the events of one day follow each other,
    the tracker has at most one entry created, and none on a day that has
    an entry already; no entry is ever removed. *)
Theorem one_entry_per_day (events : list (datetime * Event))
    (day0 : datetime) (w : world) :
  Forall (fun te => day (fst te) = day day0) events ->
  let w' := run events w in
  (latest day0 (hamster w) <> None ->
   length (entries (hamster w')) = length (entries (hamster w))) /\
  (length (entries (hamster w)) <= length (entries (hamster w'))
   <= S (length (entries (hamster w))))%nat.
Proof.
  intros Hd; revert w; cbv zeta.
  induction Hd as [| te events Hte _ IH]; intros w.
  - simpl; split; [reflexivity | lia].
  - rewrite run_cons.
    destruct (@step_same_day day0 te w Hte) as (Hsome & Hnone);
      cbv zeta in *.
    destruct (IH (dispatch te w)) as (IHsome & IHle).
    destruct (latest day0 (hamster w)) as [E |] eqn:HE.
    + destruct Hsome as (Hl & Hlen); [discriminate |].
      rewrite (IHsome Hl), Hlen. split; [reflexivity | lia].
    + split; [congruence |].
      destruct (Hnone eq_refl) as [Hh | (Hl & Hlen)].
      * rewrite Hh in IHle. exact IHle.
      * rewrite (IHsome Hl), Hlen. lia.
Qed.

End Days.

(** ** The runs at work *)

Lemma other_messages_ignored_witness :
  self (run [(490, BusMessage get_active_call);
             (491, BusMessage {| get_interface := None;
                                 get_member := Some "Lock"%string |})]
          morning) = self morning /\
  hamster (run [(490, BusMessage get_active_call);
                (491, BusMessage {| get_interface := None;
                                    get_member := Some "Lock"%string |})]
             morning) = hamster morning /\
  log (run [(490, BusMessage get_active_call);
            (491, BusMessage {| get_interface := None;
                                get_member := Some "Lock"%string |})]
         morning) = log morning /\
  calls (run [(490, BusMessage get_active_call);
              (491, BusMessage {| get_interface := None;
                                  get_member := Some "Lock"%string |})]
           morning) = calls morning.
Proof.
  refine (@other_messages_ignored plain_dbus Ledger.t ledger_service
            [(490, get_active_call);
             (491, {| get_interface := None;
                      get_member := Some "Lock"%string |})]
            morning _).
  repeat constructor; discriminate.
Defined.

Lemma active_mirrors_last_signal_witness :
  screensaver_active
    (self (run ([(540, ActiveChanged false)]
                  ++ (570, ActiveChanged true)
                  :: [(571, LockRequested)]) morning_down)) = true /\
  screensaver_active (self (run [(571, LockRequested)] morning_down))
    = screensaver_active (self morning_down).
Proof.
  refine (@active_mirrors_last_signal plain_dbus Down unreachable_service
            [(540, ActiveChanged false)] [(571, LockRequested)]
            570 true morning_down _).
  repeat constructor; discriminate.
Defined.

Lemma locked_since_last_unlock_witness :
  screen_locked
    (self (run ([(540, ActiveChanged false)]
                  ++ (569, LockRequested)
                  :: [(570, ActiveChanged true)]) morning)) = true /\
  screen_locked
    (self (run ([(569, LockRequested)]
                  ++ (580, ActiveChanged false)
                  :: [(600, ActiveChanged true)]) morning)) = false.
Proof.
  split.
  - refine (proj1 (@locked_since_last_unlock
                     plain_dbus Ledger.t ledger_service
                     [(540, ActiveChanged false)]
                     [(570, ActiveChanged true)] 569 morning) _).
    repeat constructor; discriminate.
  - refine (proj2 (@locked_since_last_unlock
                     plain_dbus Ledger.t ledger_service
                     [(569, LockRequested)]
                     [(600, ActiveChanged true)] 580 morning) _).
    repeat constructor; discriminate.
Defined.

Lemma state_follows_events_witness :
  self (run [(540, ActiveChanged false); (569, LockRequested);
             (570, ActiveChanged true)] morning_down)
  = self (run [(1, ActiveChanged false); (2, LockRequested);
               (3, ActiveChanged true)] morning).
Proof.
  refine (@state_follows_events plain_dbus Down Ledger.t
            unreachable_service ledger_service
            [(540, ActiveChanged false); (569, LockRequested);
             (570, ActiveChanged true)]
            [(1, ActiveChanged false); (2, LockRequested);
             (3, ActiveChanged true)]
            morning_down morning _ _); reflexivity.
Defined.

Lemma close_time_not_after_now_witness :
  exists ts,
    issued morning (dispatch (570, ActiveChanged true) morning)
      [Call_StopTracking ts] /\
    ts <= 570 /\
    570 - timeout_minutes (self morning) <= ts /\
    (screen_locked (self morning) = true -> ts = 570).
Proof.
  refine (@close_time_not_after_now plain_dbus Ledger.t ledger_service
            570 morning _).
  unfold Qle; simpl; lia.
Defined.


Lemma latest_entry_tracks_activation_witness :
  end_ (range {| id := Some 1%Z; category := "Work"; activity := "Work";
                 range := {| start := 540;
                             end_ := Some (570 - timedelta 10) |} |})
  <> None.
Proof.
  refine (proj2 (latest_entry_tracks_activation
                   570 [(571, get_active_call)]
                   (dispatch (540, ActiveChanged false) morning)) _ _).
  reflexivity.
Defined.

Lemma one_entry_per_day_witness :
  length (Ledger.entries
            (hamster (run [(580, ActiveChanged false);
                           (600, ActiveChanged true);
                           (630, ActiveChanged false)] away)))
  = length (Ledger.entries (hamster away)) /\
  (length (Ledger.entries (hamster morning))
   <= length (Ledger.entries
                (hamster (run [(540%Q, ActiveChanged false);
                               (570%Q, ActiveChanged true);
                               (580%Q, ActiveChanged false)] morning)))
   <= S (length (Ledger.entries (hamster morning))))%nat.
Proof.
  split.
  - refine (proj1 (@one_entry_per_day
                     [(580%Q, ActiveChanged false);
                      (600%Q, ActiveChanged true);
                      (630%Q, ActiveChanged false)]
                     540%Q away _) _).
    + repeat constructor.
    + discriminate.
  - refine (proj2 (@one_entry_per_day
                     [(540%Q, ActiveChanged false);
                      (570%Q, ActiveChanged true);
                      (580%Q, ActiveChanged false)]
                     540%Q morning _)).
    repeat constructor.
Defined.
